(** * Levanter trainer: a shallow embedding of [src/levanter/trainer.py]

    The development follows the source file top-down: pytrees and the
    equinox partition/combine pair used by [Trainer.partition_trainable_params],
    the hook registry, the trainer state and step engine, the checkpoint-resume
    protocol of [Trainer.initial_state], the axis mappings of [TrainerConfig]
    and the learning-rate schedule of [OptimizerConfig]. *)

From Stdlib Require Import ZArith QArith Reals Lra Lia.
From stdpp Require Import gmap strings list fin_maps.

Set Default Proof Using "Type".

(** ** Pytrees

    A JAX pytree is either a leaf, [None] (a node without children, which the
    default flattening does not count as a leaf), or a container node.  The
    [kind] of a node stands for its tree definition data: the container type
    together with the dictionary keys or field names. *)

#[warnings="-register-all"]
Inductive PyTree (A : Type) : Type :=
  | Leaf (x : A)
  | PNone
  | Node (kind : string) (kids : list (PyTree A)).

Arguments Leaf {A} x.
Arguments PNone {A}.
Arguments Node {A} kind kids.

Section PyTreeInd.
Context {A : Type} (P : PyTree A → Prop).
Hypothesis HLeaf : ∀ x, P (Leaf x).
Hypothesis HNone : P PNone.
Hypothesis HNode : ∀ kind kids, Forall P kids → P (Node kind kids).

Fixpoint PyTree_nested_ind (t : PyTree A) : P t :=
  match t with
  | Leaf x => HLeaf x
  | PNone => HNone
  | Node kind kids =>
      HNode kind kids
        ((fix go (l : list (PyTree A)) : Forall P l :=
            match l with
            | [] => @List.Forall_nil _ P
            | t' :: l' => @List.Forall_cons _ P t' l' (PyTree_nested_ind t') (go l')
            end) kids)
  end.
End PyTreeInd.

(** Pointwise traversal of two child lists; a length mismatch is the
    [ValueError] that [jax.tree_util.tree_map] raises. *)
Definition map2_opt {A B C} (f : A → B → option C)
    : list A → list B → option (list C) :=
  fix go l1 l2 :=
    match l1, l2 with
    | [], [] => Some []
    | a :: l1', b :: l2' =>
        match f a b, go l1' l2' with
        | Some c, Some cs => Some (c :: cs)
        | _, _ => None
        end
    | _, _ => None
    end.

Module jtu.

(** [jax.tree_util.tree_map(f, tree)]: the value [f] returns is put in the
    place of the leaf, so a callback returning [None] leaves [PNone]. *)
Fixpoint tree_map {A B} (f : A → PyTree B) (t : PyTree A) : PyTree B :=
  match t with
  | Leaf x => f x
  | PNone => PNone
  | Node kind kids => Node kind (map (tree_map f) kids)
  end.

(** [jax.tree_util.tree_map(f, tree, rest)]: [tree] fixes the structure and
    has to be a prefix of [rest]; at a leaf of [tree] the callback receives
    the whole matching subtree of [rest]. *)
Fixpoint tree_map2 {A B C} (f : A → PyTree B → option (PyTree C))
    (p : PyTree A) (t : PyTree B) {struct p} : option (PyTree C) :=
  match p with
  | Leaf a => f a t
  | PNone => match t with PNone => Some PNone | _ => None end
  | Node kind ps =>
      match t with
      | Node kind' ts =>
          if String.eqb kind kind'
          then Node kind <$> map2_opt (tree_map2 f) ps ts
          else None
      | _ => None
      end
  end.

(** [tree_map(f, tree, rest, is_leaf=lambda x: x is None)]: as [tree_map2],
    but a [None] in [tree] is a leaf too, so the callback sees either a
    genuine leaf or [None]. *)
Fixpoint tree_map2_none_leaf {A B C} (f : option A → PyTree B → option (PyTree C))
    (p : PyTree A) (t : PyTree B) {struct p} : option (PyTree C) :=
  match p with
  | Leaf a => f (Some a) t
  | PNone => f None t
  | Node kind ps =>
      match t with
      | Node kind' ts =>
          if String.eqb kind kind'
          then Node kind <$> map2_opt (tree_map2_none_leaf f) ps ts
          else None
      | _ => None
      end
  end.

End jtu.

(** ** Equinox filtering: [eqx.partition] and [eqx.combine] *)

Module eqx.
Section Filter.
Context {A : Type}.

(** A filter specification leaf: a boolean or a callable on leaves. *)
Inductive FilterSpec : Type :=
  | FBool (b : bool)
  | FCallable (p : A → bool).

Definition _filter_tree (mask : FilterSpec) (arg : PyTree A) : option (PyTree bool) :=
  match mask with
  | FBool b => Some (jtu.tree_map (λ _, Leaf b) arg)
  | FCallable p => Some (jtu.tree_map (λ x, Leaf (p x)) arg)
  end.

Definition partition (pytree : PyTree A) (filter_spec : PyTree FilterSpec)
    : option (PyTree A * PyTree A) :=
  filter_tree ← jtu.tree_map2 _filter_tree filter_spec pytree;
  left ← jtu.tree_map2 (λ (mask : bool) x, Some (if mask then x else PNone)) filter_tree pytree;
  right ← jtu.tree_map2 (λ (mask : bool) x, Some (if mask then PNone else x)) filter_tree pytree;
  Some (left, right).

(** [_combine]: the first of its arguments that is not [None]. *)
Definition _combine (l : option A) (r : PyTree A) : option (PyTree A) :=
  match l with
  | Some x => Some (Leaf x)
  | None => match r with PNone => Some PNone | _ => Some r end
  end.

Definition combine (left right : PyTree A) : option (PyTree A) :=
  jtu.tree_map2_none_leaf _combine left right.

End Filter.
Arguments FilterSpec A : clear implicits.
End eqx.

(** ** Exceptions

    Fallible code returns a [Result]: either a value or the exception that the
    Python code raises. *)

Inductive Exn : Type :=
  | ValueError (msg : string)
  | AssertionError (msg : string)
  | UnboundLocalError (name : string)
  | ZeroDivisionError
  | RuntimeError (msg : string)
  | ExternalError (msg : string).

Inductive Result (A : Type) : Type :=
  | Ok (a : A)
  | Raise (e : Exn).

Arguments Ok {A} a.
Arguments Raise {A} e.

#[global] Instance Result_ret : MRet Result := λ A, Ok.

#[global] Instance Result_bind : MBind Result := λ A B k r,
  match r with
  | Ok a => k a
  | Raise e => Raise e
  end.

(** A failed tree traversal is the [ValueError] raised by [jax.tree_util]. *)
Definition of_tree_op {A} (o : option A) : Result A :=
  match o with
  | Some a => Ok a
  | None => Raise (ValueError "pytree structure mismatch")
  end.

(** ** Arrays, dtypes and the [jmp] precision policy *)

Inductive DType : Type :=
  | float16 | bfloat16 | float32 | float64 | int32 | bool_.

Definition is_floating (d : DType) : bool :=
  match d with
  | float16 | bfloat16 | float32 | float64 => true
  | int32 | bool_ => false
  end.

(** The leaf reached by a path of child indices. *)
Fixpoint leaf_at {A} (t : PyTree A) (path : list nat) : option A :=
  match path, t with
  | [], Leaf x => Some x
  | i :: path', Node _ kids => t' ← kids !! i; leaf_at t' path'
  | _, _ => None
  end.

(** Leaves of a model.  [data] identifies the contents of an array; a
    [ShapeDtypeStruct] is the abstract array that shape evaluation returns;
    [Static] is any other Python object.  Array shapes play no role in the
    trainer's control flow and are left out. *)
Inductive Value : Type :=
  | Array (dtype : DType) (data : Z)
  | ShapeDtypeStruct (dtype : DType)
  | Static (obj : string).

Arguments Array dtype data%_Z.

Definition Model := PyTree Value.
Definition OptState := PyTree Value.

Module jmp.

Record Policy : Type := {
  param_dtype : DType;
  compute_dtype : DType;
  output_dtype : DType;
}.

(** [conditional_cast]: floating-point arrays change dtype, everything else
    is returned as it is. *)
Definition conditional_cast (dtype : DType) (x : Value) : Value :=
  match x with
  | Array d data => if is_floating d then Array dtype data else x
  | ShapeDtypeStruct d => x
  | Static _ => x
  end.

Definition _cast_floating_to (tree : Model) (dtype : DType) : Model :=
  jtu.tree_map (λ x, Leaf (conditional_cast dtype x)) tree.

Definition cast_to_param (mp : Policy) (x : Model) : Model :=
  _cast_floating_to x (param_dtype mp).

Definition cast_to_compute (mp : Policy) (x : Model) : Model :=
  _cast_floating_to x (compute_dtype mp).

(** [jmp.get_policy("f32")], the default of [TrainerConfig.mp]. *)
Definition f32 : Policy :=
  {| param_dtype := float32; compute_dtype := float32; output_dtype := float32 |}.

End jmp.

(** Modelled from the spec: [levanter.utils.jax_utils.is_inexact_arrayish] is
    not among the sources; the spec calls a leaf trainable only when it is
    "of floating-point/array type". *)
Definition is_inexact_arrayish_spec (x : Value) : bool :=
  match x with
  | Array d _ => is_floating d
  | ShapeDtypeStruct d => is_floating d
  | Static _ => false
  end.

(** [eqx.filter_eval_shape] turns every array a function would return into a
    [ShapeDtypeStruct] without computing its contents. *)
Definition shape_of (x : Value) : Value :=
  match x with
  | Array d _ => ShapeDtypeStruct d
  | _ => x
  end.

Definition eval_shape (t : PyTree Value) : PyTree Value :=
  jtu.tree_map (λ x, Leaf (shape_of x)) t.

(** ** Trainer state, step results and hooks *)

Definition PRNGKeyArray := Z.

Record TrainerState : Type := {
  step : Z;
  model : Model;
  opt_state : OptState;
  training_key : PRNGKeyArray;
}.

Record StepInfo : Type := {
  state : TrainerState;
  loss : Q;
  step_duration : Q;
}.

Definition StepInfo_state (self : StepInfo) : TrainerState := state self.

(** [StepInfo.step]: the step that was just completed. *)
Definition StepInfo_step (self : StepInfo) : Z := step (state self) - 1.
Definition StepInfo_next_step (self : StepInfo) : Z := step (state self).

(** ** External collaborators

    Everything the trainer calls but does not define: library functions of
    JAX, equinox, optax and wandb, and the modules of this repository that are
    not among the sources ([levanter.grad_accum], [levanter.checkpoint],
    [levanter.utils]).  They are parameters of the whole development. *)

Class Collaborators : Type := {
  (** the loader's batch type *)
  Batch : Type;
  (** the state of the outside world that hooks and loggers act on *)
  World : Type;
  (** reading a [capture_time] timer *)
  clock : World → Q;
  (** [wandb.log({name: value}, step=step)] *)
  wandb_log : string → Q → Z → World → World;
  (** [jax.random.split] *)
  random_split : PRNGKeyArray → PRNGKeyArray * PRNGKeyArray;
  (** [levanter.utils.jax_utils.is_inexact_arrayish] *)
  is_inexact_arrayish : Value → bool;
  (** [levanter.utils.tree_utils.inference_mode] *)
  inference_mode : Model → bool → Model;
  (** [levanter.grad_accum.accumulate_gradients_sharded], applied to the loss
      function, the trainable parameters, the batch and the key *)
  accumulate_gradients_sharded :
    (Model → Batch → PRNGKeyArray → Result Q) →
    Model → Batch → PRNGKeyArray → Result (Q * Model);
  (** [eqx.apply_updates] *)
  apply_updates : Model → Model → Result Model;
  (** [checkpointer.load_checkpoint(model, training_state, path, axis_mapping)]:
      [None] when there is no checkpoint at the path *)
  checkpointer_load_checkpoint :
    Model → OptState * PRNGKeyArray → string → gmap string string →
    Result (option (Model * (OptState * PRNGKeyArray) * Z));
}.

(** [optax.GradientTransformation] *)
Record GradientTransformation : Type := {
  init : Model → OptState;
  update : Model → OptState → Model → Result (Model * OptState);
}.

Section Hooks.
Context `{Collaborators}.

Record _Hook : Type := {
  fn : StepInfo → World → Result World;
  every : Z;
}.

(** [TrainerHooks.hooks], in registration order. *)
Definition TrainerHooks := list _Hook.

Definition add_hook (hooks : TrainerHooks) (f : StepInfo → World → Result World)
    (every : Z) : TrainerHooks :=
  hooks ++ [{| fn := f; every := every |}].

(** [info.step % hook.every == 0]; Python's [%] on integers is floored, as
    [Z.modulo] is, and raises on a zero divisor. *)
Definition py_mod (a b : Z) : Result Z :=
  if (b =? 0)%Z then Raise ZeroDivisionError else Ok (a mod b)%Z.

Fixpoint run_hooks (hooks : TrainerHooks) (info : StepInfo) (force : bool)
    (w : World) : Result World :=
  match hooks with
  | [] => Ok w
  | hook :: rest =>
      fire ← (if force then Ok true
              else r ← py_mod (StepInfo_step info) (every hook); Ok (r =? 0)%Z);
      if (fire : bool)
      then w' ← fn hook info w; run_hooks rest info force w'
      else run_hooks rest info force w
  end.
End Hooks.

(** ** Trainer configuration *)

Module ResourceAxis.
Definition MODEL : string := "model".
Definition DATA : string := "data".
End ResourceAxis.

(** [Union[str, List[str]]] *)
Inductive StrOrList : Type :=
  | OneStr (s : string)
  | StrList (l : list string).

Record TrainerConfig : Type := {
  mp : jmp.Policy;
  batch_axis : option string;
  fsdp_axis : option StrOrList;
  tensor_parallel_axes : option (list string);
  axis_resources : gmap string string;
  parameter_axis_resources : gmap string string;
  num_train_steps : Z;
  load_checkpoint : option bool;
  load_checkpoint_path : option string;
}.

Section Config.
Context `{Collaborators}.

(** The warning logged when tensor-parallel axes override entries of
    [axis_resources] has no effect on the mapping and is left out. *)
Definition compute_axis_mapping (self : TrainerConfig) : gmap string string :=
  let axes_to_return := axis_resources self in
  let tp_axes := default [] (tensor_parallel_axes self) in
  let axes_to_return :=
    foldl (λ m axis, <[axis := ResourceAxis.MODEL]> m) axes_to_return tp_axes in
  match batch_axis self with
  | Some b => <[b := ResourceAxis.DATA]> axes_to_return
  | None => axes_to_return
  end.

Definition parameter_axis_mapping (self : TrainerConfig) : gmap string string :=
  let mapping := compute_axis_mapping self in
  let mapping :=
    foldl (λ m item, <[item.1 := item.2]> m) mapping
          (map_to_list (parameter_axis_resources self)) in
  match fsdp_axis self with
  | Some (OneStr s) => <[s := ResourceAxis.DATA]> mapping
  | Some (StrList l) => foldl (λ m axis, <[axis := ResourceAxis.DATA]> m) mapping l
  | None => mapping
  end.

Definition maybe_load_checkpoint (self : TrainerConfig) (model : Model)
    (training_state : OptState * PRNGKeyArray) (axis_mapping : gmap string string)
    : Result (option (Model * (OptState * PRNGKeyArray) * Z)) :=
  match load_checkpoint self with
  | Some false => Ok None
  | flag =>
      match load_checkpoint_path self with
      | None =>
          Raise (AssertionError "load_checkpoint_path should have been set during initialization")
      | Some path =>
          ckpt ← checkpointer_load_checkpoint model training_state path axis_mapping;
          match ckpt, flag with
          | None, Some true => Raise (ValueError "Could not load checkpoint")
          | _, _ => Ok ckpt
          end
      end
  end.
End Config.

(** ** The trainer *)

Section Trainer.
Context `{Collaborators}.

Record Trainer : Type := {
  config : TrainerConfig;
  optimizer : GradientTransformation;
  _raw_loss_function : Model → Batch → PRNGKeyArray → Result Q;
  is_trainable_param : PyTree (eqx.FilterSpec Value);
  hooks : TrainerHooks;
}.

(** A zero-argument callable returning a model. *)
Definition ModelInit := unit → Result Model.

(** The wrapped loss function: the model is cast to compute precision. *)
Definition loss_fn (self : Trainer) (model : Model) (batch : Batch)
    (key : PRNGKeyArray) : Result Q :=
  let model := jmp.cast_to_compute (mp (config self)) model in
  _raw_loss_function self model batch key.

Definition trainable_and_diffable (pred : eqx.FilterSpec Value) : eqx.FilterSpec Value :=
  match pred with
  | eqx.FCallable p => eqx.FCallable (λ x, p x && is_inexact_arrayish x)
  | eqx.FBool true => eqx.FCallable is_inexact_arrayish
  | eqx.FBool false => pred
  end.

Definition partition_trainable_params (self : Trainer) (model : Model)
    : Result (Model * Model) :=
  let combined_mask :=
    jtu.tree_map (λ pred, Leaf (trainable_and_diffable pred)) (is_trainable_param self) in
  of_tree_op (eqx.partition model combined_mask).

Definition trainable_params_only (self : Trainer) (model : Model) : Result Model :=
  '(trainable, _) ← partition_trainable_params self model; Ok trainable.

Definition _init_model_and_opt_state (self : Trainer) (model_init : ModelInit)
    : Result (Model * OptState) :=
  model ← model_init ();
  '(trainable, non_trainable) ← partition_trainable_params self model;
  let trainable := jmp.cast_to_param (mp (config self)) trainable in
  let non_trainable := jmp.cast_to_compute (mp (config self)) non_trainable in
  model ← of_tree_op (eqx.combine trainable non_trainable);
  let opt_state := init (optimizer self) trainable in
  Ok (model, opt_state).

Definition _init_non_trainable_params (self : Trainer) (model_init : ModelInit)
    : Result Model :=
  model ← model_init ();
  '(trainable, non_trainable) ← partition_trainable_params self model;
  let non_trainable := jmp.cast_to_compute (mp (config self)) non_trainable in
  Ok non_trainable.

(** [eqx.filter_eval_shape(f, model_init)]: the shapes of what [f] returns. *)
Definition filter_eval_shape (f : ModelInit → Result (Model * OptState))
    (model_init : ModelInit) : Result (Model * OptState) :=
  '(model, opt_state) ← f model_init;
  Ok (eval_shape model, eval_shape opt_state).

(** [initial_state] after its argument check: [model] is the concrete model
    when one was supplied, and [model_init] is the initializer, which for a
    concrete model is the partial application returning it. *)
Definition initial_state_checked (self : Trainer) (training_key : PRNGKeyArray)
    (model : option Model) (model_init : ModelInit) : Result TrainerState :=
  '(model_shape, opt_state_shape) ←
    filter_eval_shape (_init_model_and_opt_state self) model_init;
  trainable_model_shape ← trainable_params_only self model_shape;
  ckpt ← maybe_load_checkpoint (config self) trainable_model_shape
           (opt_state_shape, training_key) (parameter_axis_mapping (config self));
  match ckpt with
  | Some (trainable_model, (opt_state, training_key), completed_step) =>
      model ← match model with
              | Some m => of_tree_op (eqx.combine trainable_model m)
              | None =>
                  non_trainable ← _init_non_trainable_params self model_init;
                  of_tree_op (eqx.combine trainable_model non_trainable)
              end;
      Ok {| step := completed_step + 1; model := model;
            opt_state := opt_state; training_key := training_key |}
  | None =>
      '(model, opt_state) ← _init_model_and_opt_state self model_init;
      Ok {| step := 0; model := model;
            opt_state := opt_state; training_key := training_key |}
  end.

Definition initial_state (self : Trainer) (training_key : PRNGKeyArray)
    (model : option Model) (model_init : option ModelInit) : Result TrainerState :=
  match model, model_init with
  | Some _, Some _ =>
      Raise (ValueError "only one of model and model_init should be specified")
  | None, None =>
      Raise (ValueError "one of model and model_init must be specified")
  | Some m, None => initial_state_checked self training_key model (λ _, Ok m)
  | None, Some mi => initial_state_checked self training_key model mi
  end.

Definition _train_step_fn (self : Trainer) (model : Model) (opt_state : OptState)
    (batch : Batch) (key : PRNGKeyArray) : Result (Q * Model * OptState) :=
  let model := inference_mode model false in
  '(trainable_model, rest_model) ← partition_trainable_params self model;
  let split_loss_fn (trainable_model : Model) batch key :=
    model ← of_tree_op (eqx.combine trainable_model rest_model);
    loss_fn self model batch key in
  '(loss, grads) ← accumulate_gradients_sharded split_loss_fn trainable_model batch key;
  '(updates, opt_state) ← update (optimizer self) grads opt_state trainable_model;
  model ← apply_updates model updates;
  Ok (loss, model, opt_state).

Definition train_step (self : Trainer) (state : TrainerState) (batch : Batch)
    (w : World) : Result StepInfo :=
  let '(key, new_key) := random_split (training_key state) in
  '(loss, new_model, new_optstate) ←
    _train_step_fn self (model state) (opt_state state) batch key;
  Ok {| state := {| step := step state + 1; model := new_model;
                    opt_state := new_optstate; training_key := new_key |};
        loss := loss; step_duration := clock w |}.

(** What the consumer of a generator sees: the values yielded so far and how
    the generator ended. *)
Record Generated : Type := {
  yielded : list StepInfo;
  finished : Result unit;
  world : World;
}.

(** The [while] loop of [training_steps].  [fuel] bounds the number of
    iterations; [training_steps] supplies one more than the number of steps
    that remain, so that the loop always ends by its own test.
    A [StopIteration] escaping from [next] inside a generator surfaces as a
    [RuntimeError]. *)
Fixpoint training_steps_loop (fuel : nat) (self : Trainer) (state : TrainerState)
    (iter_data : list Batch) (run_hooks_flag : bool) (w : World) : Generated :=
  match fuel with
  | O => {| yielded := []; finished := Ok (); world := w |}
  | S fuel' =>
      if (step state <? num_train_steps (config self))%Z then
        match iter_data with
        | [] => {| yielded := [];
                   finished := Raise (RuntimeError "generator raised StopIteration");
                   world := w |}
        | example :: iter_data' =>
            let w := wandb_log "throughput/loading_time" (clock w) (step state) w in
            match train_step self state example w with
            | Raise e => {| yielded := []; finished := Raise e; world := w |}
            | Ok info =>
                let state := StepInfo_state info in
                let after_hooks :=
                  if run_hooks_flag then
                    w' ← run_hooks (hooks self) info false w;
                    Ok (wandb_log "throughput/hook_time" (clock w') (step state) w')
                  else Ok w in
                match after_hooks with
                | Raise e => {| yielded := []; finished := Raise e; world := w |}
                | Ok w =>
                    let rest := training_steps_loop fuel' self state iter_data'
                                  run_hooks_flag w in
                    {| yielded := info :: yielded rest;
                       finished := finished rest;
                       world := world rest |}
                end
            end
        end
      else {| yielded := []; finished := Ok (); world := w |}
  end.

Definition training_steps (self : Trainer) (state : TrainerState)
    (train_loader : list Batch) (run_hooks_flag : bool) (w : World) : Generated :=
  training_steps_loop (S (Z.to_nat (num_train_steps (config self) - step state)))
    self state train_loader run_hooks_flag w.

(** [train]: the loop variable [info] is bound by the [for] loop only; it is
    [None] here as long as nothing was yielded. *)
Definition train (self : Trainer) (state : TrainerState) (train_loader : list Batch)
    (run_hooks_flag : bool) (w : World) : Result (StepInfo * World) :=
  let gen := training_steps self state train_loader run_hooks_flag w in
  let info : option StepInfo := last (yielded gen) in
  _ ← finished gen;
  let w := world gen in
  w ← (if run_hooks_flag then
         match info with
         | None => Raise (UnboundLocalError "info")
         | Some info => run_hooks (hooks self) info true w
         end
       else Ok w);
  match info with
  | None => Raise (UnboundLocalError "info")
  | Some info => Ok (info, w)
  end.
End Trainer.

(** ** The same step at the level of object references

    [TrainerState] is a mutable dataclass and its model and optimizer state
    are trees of [jax.Array] objects.  Here the states live in a store of
    objects and the leaves in a heap: [state] is a reference, attribute reads
    are lookups, the constructor call allocates a fresh object and the arrays
    a step returns are new objects.

    [_train_step_fn] is jitted with [donate_args=(True, True)]: the arrays of
    its first two arguments, the model and the optimizer state, are donated.
    On a platform that implements buffer donation the runtime takes their
    buffers over for the outputs, which have the same shapes, and the donated
    arrays are deleted: passing one to a later call raises [RuntimeError].
    A platform without donation leaves them as they are.  [donation] tells
    which platform the step runs on. *)

Module ObjectStore.

(** [jax.tree_util.tree_leaves] *)
Fixpoint tree_leaves {A} (t : PyTree A) : list A :=
  match t with
  | Leaf x => [x]
  | PNone => []
  | Node _ kids => concat (map tree_leaves kids)
  end.

(** Traversing a list of children with a fallible function, left to right. *)
Definition mapM {A B} (f : A → Result B) : list A → Result (list B) :=
  fix go l :=
    match l with
    | [] => Ok []
    | a :: l' => b ← f a; bs ← go l'; Ok (b :: bs)
    end.

Section ObjectStore.
Context `{Collaborators}.

Definition loc := positive.

(** What a leaf reference points to: a value, or an array whose buffer was
    given away. *)
Inductive Object : Type :=
  | Live (x : Value)
  | Deleted.

(** The heap is a [gmap loc Object]. *)

Record TrainerState : Type := {
  step : Z;
  model : PyTree loc;
  opt_state : PyTree loc;
  training_key : PRNGKeyArray;
}.

Record StepInfo : Type := {
  state : loc;
  loss : Q;
  step_duration : Q;
}.

(** Passing a leaf to a jitted function. *)
Definition read_leaf (heap : gmap loc Object) (l : loc) : Result Value :=
  match heap !! l with
  | Some (Live x) => Ok x
  | Some Deleted => Raise (RuntimeError "Array has been deleted")
  | None => Raise (ExternalError "no such object")
  end.

Fixpoint read_tree (heap : gmap loc Object) (t : PyTree loc)
    : Result (PyTree Value) :=
  match t with
  | Leaf l => x ← read_leaf heap l; Ok (Leaf x)
  | PNone => Ok PNone
  | Node kind kids => kids' ← mapM (read_tree heap) kids; Ok (Node kind kids')
  end.

(** The leaves of a returned tree are new objects. *)
Definition alloc_leaf (x : Value) (heap : gmap loc Object)
    : loc * gmap loc Object :=
  let l := fresh (dom heap) in (l, <[l := Live x]> heap).

Definition alloc_list {A B} (f : A → gmap loc Object → B * gmap loc Object)
    : list A → gmap loc Object → list B * gmap loc Object :=
  fix go l heap :=
    match l with
    | [] => ([], heap)
    | a :: l' =>
        let '(b, heap) := f a heap in
        let '(bs, heap) := go l' heap in
        (b :: bs, heap)
    end.

Fixpoint alloc_tree (t : PyTree Value) (heap : gmap loc Object)
    : PyTree loc * gmap loc Object :=
  match t with
  | Leaf x => let '(l, heap) := alloc_leaf x heap in (Leaf l, heap)
  | PNone => (PNone, heap)
  | Node kind kids =>
      let '(kids, heap) := alloc_list alloc_tree kids heap in (Node kind kids, heap)
  end.

(** Donation concerns arrays only; any other leaf of a donated argument is
    a static argument of the jitted function. *)
Definition delete_array (o : Object) : Object :=
  match o with
  | Live (Array _ _) => Deleted
  | _ => o
  end.

Definition donate (heap : gmap loc Object) (leaves : list loc)
    : gmap loc Object :=
  foldr (alter delete_array) heap leaves.

Variable donation : bool.

Definition train_step (self : Trainer) (objects : gmap loc TrainerState)
    (heap : gmap loc Object) (state : loc) (batch : Batch) (w : World)
    : Result (gmap loc TrainerState * gmap loc Object * StepInfo) :=
  match objects !! state with
  | None => Raise (ExternalError "no such object")
  | Some s =>
      let '(key, new_key) := random_split (training_key s) in
      model_in ← read_tree heap (model s);
      opt_state_in ← read_tree heap (opt_state s);
      '(loss, new_model, new_optstate) ←
        _train_step_fn self model_in opt_state_in batch key;
      let heap :=
        if donation
        then donate heap (tree_leaves (model s) ++ tree_leaves (opt_state s))
        else heap in
      let '(new_model, heap) := alloc_tree new_model heap in
      let '(new_optstate, heap) := alloc_tree new_optstate heap in
      let new_state := fresh (dom objects) in
      Ok (<[new_state := {| step := step s + 1; model := new_model;
                            opt_state := new_optstate; training_key := new_key |}]> objects,
          heap,
          {| state := new_state; loss := loss; step_duration := clock w |})
  end.
End ObjectStore.
End ObjectStore.

(** ** Learning-rate schedules

    Python floats are idealised: the learning rate and the schedule values are
    real numbers, the warmup ratio is a rational. *)

Module optax.
Local Open Scope R_scope.

Definition Schedule := Z → R.

Definition constant_schedule (value : R) : Schedule := λ _, value.

(** [linear_schedule] is [polynomial_schedule] with power one; a
    non-positive number of transition steps gives the constant schedule. *)
Definition linear_schedule (init_value end_value : R) (transition_steps : Z)
    : Schedule :=
  if (transition_steps <=? 0)%Z then λ _, init_value
  else λ count,
    let count := Z.min (Z.max count 0) transition_steps in
    let frac := 1 - IZR count / IZR transition_steps in
    (init_value - end_value) * frac + end_value.

Definition cosine_decay_schedule (init_value : R) (decay_steps : Z) (alpha : R)
    : Result Schedule :=
  if (0 <? decay_steps)%Z then
    Ok (λ count,
      let count := Z.min count decay_steps in
      let cosine_decay := 0.5 * (1 + cos (PI * IZR count / IZR decay_steps)) in
      let decayed := (1 - alpha) * cosine_decay + alpha in
      init_value * decayed)
  else Raise (ValueError "The cosine_decay_schedule requires positive decay_steps!").

Definition join_schedules (schedules : list Schedule) (boundaries : list Z)
    : Schedule :=
  λ step,
    match schedules with
    | [] => 0
    | first :: others =>
        foldl (λ output bs, if (step <? bs.1)%Z then output else bs.2 (step - bs.1)%Z)
              (first step) (zip boundaries others)
    end.
End optax.

Record OptimizerConfig : Type := {
  learning_rate : R;
  min_lr_ratio : R;
  warmup_ratio : Q;
  lr_schedule : string;
}.

(** [int(x)] on a float: truncation toward zero. *)
Definition py_int (x : Q) : Z := Z.quot (Qnum x) (Zpos (Qden x)).

Definition warmup_steps_of (self : OptimizerConfig) (num_train_steps : Z) : Z :=
  py_int (warmup_ratio self * inject_Z num_train_steps)%Q.

Definition lr_scheduler (self : OptimizerConfig) (num_train_steps : Z)
    : Result optax.Schedule :=
  let warmup_steps := warmup_steps_of self num_train_steps in
  let lr_decay_steps := (num_train_steps - warmup_steps)%Z in
  let min_lr := (learning_rate self * min_lr_ratio self)%R in
  schedule ←
    (if String.eqb (lr_schedule self) "constant" then
       Ok (optax.constant_schedule (learning_rate self))
     else if String.eqb (lr_schedule self) "cosine" then
       optax.cosine_decay_schedule (learning_rate self) lr_decay_steps (min_lr_ratio self)
     else if String.eqb (lr_schedule self) "linear" then
       Ok (optax.linear_schedule (learning_rate self) min_lr
             (lr_decay_steps - warmup_steps)%Z)
     else Raise (ValueError "Unknown lr_schedule"));
  if (warmup_steps =? 0)%Z then Ok schedule
  else
    let warmup := optax.linear_schedule 0%R (learning_rate self) warmup_steps in
    Ok (optax.join_schedules [warmup; schedule] [warmup_steps]).

(** The warmup length as the specification words it: the product rounded to
    the nearest integer (Python's [round], ties to even). *)
Definition py_round (x : Q) : Z :=
  let fl := (Qnum x / Zpos (Qden x))%Z in
  let twice_rem := (2 * (Qnum x mod Zpos (Qden x)))%Z in
  if (twice_rem <? Zpos (Qden x))%Z then fl
  else if (Zpos (Qden x) <? twice_rem)%Z then (fl + 1)%Z
  else if Z.even fl then fl else (fl + 1)%Z.

Definition spec_warmup_steps (self : OptimizerConfig) (num_train_steps : Z) : Z :=
  py_round (warmup_ratio self * inject_Z num_train_steps)%Q.

(** ** Auxiliary definitions for the statements below *)

Section Halves.
Context {A : Type}.

(** The two callbacks of [eqx.partition]. *)
Definition keep_left (mask : bool) (x : PyTree A) : option (PyTree A) :=
  Some (if mask then x else PNone).
Definition keep_right (mask : bool) (x : PyTree A) : option (PyTree A) :=
  Some (if mask then PNone else x).

(** The two halves that a per-leaf predicate selects. *)
Definition selected (g : A → bool) (m : PyTree A) : PyTree A :=
  jtu.tree_map (λ x, if g x then Leaf x else PNone) m.
Definition rejected (g : A → bool) (m : PyTree A) : PyTree A :=
  jtu.tree_map (λ x, if g x then PNone else Leaf x) m.
End Halves.

(** ** A concrete instance

    Collaborators simple enough to run the trainer on examples: the world is
    the list of logged names, batches are integers, the gradient of a model
    is the model itself, updates leave the model as it is, and the
    checkpointer answers [saved] at every path. *)

Definition demo_collaborators
    (saved : Result (option (Model * (OptState * PRNGKeyArray) * Z)))
    : Collaborators := {|
  Batch := Z;
  World := list string;
  clock := λ _, 0%Q;
  wandb_log := λ name _ _ w, w ++ [name];
  random_split := λ k, (2 * k, 2 * k + 1)%Z;
  is_inexact_arrayish := is_inexact_arrayish_spec;
  inference_mode := λ m _, m;
  accumulate_gradients_sharded := λ f m b k, loss ← f m b k; Ok (loss, m);
  apply_updates := λ m _, Ok m;
  checkpointer_load_checkpoint := λ _ _ _ _, saved;
|}.

Definition demo_optimizer : GradientTransformation := {|
  init := λ params, params;
  update := λ grads opt_state _, Ok (grads, opt_state);
|}.

(** The defaults of [TrainerConfig], with a checkpoint path as
    [TrainerConfig.initialize] sets it and a short run. *)
Definition demo_config (mp : jmp.Policy) (load_checkpoint : option bool)
    (num_train_steps : Z) : TrainerConfig := {|
  mp := mp;
  batch_axis := Some "batch";
  fsdp_axis := Some (OneStr "embed");
  tensor_parallel_axes := None;
  axis_resources := ∅;
  parameter_axis_resources := ∅;
  num_train_steps := num_train_steps;
  load_checkpoint := load_checkpoint;
  load_checkpoint_path := Some "checkpoints/run";
|}.

Definition demo_trainer `{Collaborators} (cfg : TrainerConfig)
    (is_trainable : PyTree (eqx.FilterSpec Value)) : Trainer := {|
  config := cfg;
  optimizer := demo_optimizer;
  _raw_loss_function := λ _ _ _, Ok 0%Q;
  is_trainable_param := is_trainable;
  hooks := [];
|}.

(** A module with a float32 weight, a float32 buffer that the mask freezes
    and an integer step counter. *)
Definition demo_model : Model :=
  Node "Module" [Leaf (Array float32 1); Leaf (Array float32 2); Leaf (Array int32 3)].

Definition demo_mask : PyTree (eqx.FilterSpec Value) :=
  Node "Module" [Leaf (eqx.FBool true); Leaf (eqx.FBool false); Leaf (eqx.FBool true)].

Definition demo_state : TrainerState := {|
  step := 0; model := demo_model; opt_state := PNone; training_key := 7%Z;
|}.

(** The same state as an object: its model refers to three arrays of the
    heap. *)
Definition demo_state_object : ObjectStore.TrainerState := {|
  ObjectStore.step := 0;
  ObjectStore.model := Node "Module" [Leaf 1%positive; Leaf 2%positive; Leaf 3%positive];
  ObjectStore.opt_state := PNone;
  ObjectStore.training_key := 7%Z;
|}.

Definition demo_objects : gmap positive ObjectStore.TrainerState :=
  {[ 1%positive := demo_state_object ]}.

Definition demo_heap : gmap positive ObjectStore.Object :=
  {[ 1%positive := ObjectStore.Live (Array float32 1);
     2%positive := ObjectStore.Live (Array float32 2);
     3%positive := ObjectStore.Live (Array int32 3) ]}.

(** ** Hooks selected by the firing rule *)

Section Firing.
Context `{Collaborators}.

Definition fires (info : StepInfo) (force : bool) (hook : _Hook) : bool :=
  force || (StepInfo_step info mod every hook =? 0)%Z.

(** Calling the callbacks of a list of hooks one after the other. *)
Fixpoint invoke_all (hooks : list _Hook) (info : StepInfo) (w : World) : Result World :=
  match hooks with
  | [] => Ok w
  | hook :: rest => w' ← fn hook info w; invoke_all rest info w'
  end.
End Firing.

(** Three hooks that write their name to the log, with periods 1, 2 and 3. *)
Definition demo_log (name : string) (info : StepInfo) (w : list string)
    : Result (list string) :=
  Ok (w ++ [name]).

Definition demo_hooks : @TrainerHooks (demo_collaborators (Ok None)) :=
  let hook := @Build__Hook (demo_collaborators (Ok None)) in
  [ hook (demo_log "every1") 1%Z; hook (demo_log "every2") 2%Z;
    hook (demo_log "every3") 3%Z ].

Definition demo_info (next_step : Z) : StepInfo := {|
  state := {| step := next_step; model := demo_model; opt_state := PNone;
              training_key := 7%Z |};
  loss := 0%Q;
  step_duration := 0%Q;
|}.

(** ** Resume examples

    A checkpoint written after step 41: the trainable weight and nothing
    else. *)
Definition demo_checkpoint : Model * (OptState * PRNGKeyArray) * Z :=
  (Node "Module" [Leaf (Array float32 100); PNone; PNone], (PNone, 9%Z), 41%Z).

(** Parameters in float32, computation in bfloat16. *)
Definition mixed_policy : jmp.Policy :=
  {| jmp.param_dtype := float32; jmp.compute_dtype := bfloat16;
     jmp.output_dtype := bfloat16 |}.

(** The predicate that a filter specification leaf applies to model leaves. *)
Definition spec_pred {A} (mask : eqx.FilterSpec A) : A → bool :=
  match mask with
  | eqx.FBool b => λ _, b
  | eqx.FCallable p => p
  end.

(** ** Axis names

    The names that the [fsdp_axis] field stands for, and the configuration of
    the override example: [axis_resources={"x": "A"}],
    [tensor_parallel_axes=["x"]], [batch_axis="b"], [fsdp_axis=["x"]]. *)
Definition fsdp_names (fsdp : option StrOrList) : list string :=
  match fsdp with
  | Some (OneStr s) => [s]
  | Some (StrList l) => l
  | None => []
  end.

Definition override_config : TrainerConfig := {|
  mp := jmp.f32;
  batch_axis := Some "b";
  fsdp_axis := Some (StrList ["x"]);
  tensor_parallel_axes := Some ["x"];
  axis_resources := {["x" := "A"]};
  parameter_axis_resources := ∅;
  num_train_steps := 400000;
  load_checkpoint := None;
  load_checkpoint_path := None;
|}.

(** ** Optimizer configurations

    The defaults of [OptimizerConfig], and the three configurations of the
    schedule examples: a tenth of the steps as warmup before a cosine or a
    constant schedule, and a fifth before a linear one. *)
Definition default_optimizer_config : OptimizerConfig := {|
  learning_rate := (6 / 10000)%R;
  min_lr_ratio := 0%R;
  warmup_ratio := 1 # 100;
  lr_schedule := "cosine";
|}.

Definition boundary_config : OptimizerConfig := {|
  learning_rate := (6 / 10000)%R;
  min_lr_ratio := 0%R;
  warmup_ratio := 1 # 10;
  lr_schedule := "cosine";
|}.

Definition linear_config : OptimizerConfig := {|
  learning_rate := 1%R;
  min_lr_ratio := 0%R;
  warmup_ratio := 1 # 5;
  lr_schedule := "linear";
|}.

(** ** Batch sizes and devices

    The fields of [TrainerConfig] that concern batch sizes and evaluation,
    kept in a record of their own, and what JAX reports about the devices. *)

Record TrainerConfigSizes : Type := {
  model_axis_size : Z;
  train_batch_size : Z;
  per_device_parallelism : Z;
  per_device_eval_parallelism : Z;
  steps_per_eval : Z;
  max_eval_batches : option Z;
}.

(** [jax.device_count()] and [jax.local_device_count()] *)
Record Devices : Type := {
  device_count : Z;
  local_device_count : Z;
}.

(** Python's [//] on integers: floored, raising on a zero divisor. *)
Definition py_floordiv (a b : Z) : Result Z :=
  if (b =? 0)%Z then Raise ZeroDivisionError else Ok (a / b)%Z.

(** [TrainerConfig.data_axis_size], with its assertion. *)
Definition data_axis_size (dev : Devices) (self : TrainerConfigSizes) : Result Z :=
  r ← py_mod (device_count dev) (model_axis_size self);
  if (r =? 0)%Z then py_floordiv (device_count dev) (model_axis_size self)
  else Raise (AssertionError "").

Definition eval_batch_size (dev : Devices) (self : TrainerConfigSizes) : Result Z :=
  das ← data_axis_size dev self;
  Ok (per_device_eval_parallelism self * das)%Z.

Definition with_per_device_parallelism (self : TrainerConfigSizes) (v : Z)
    : TrainerConfigSizes := {|
  model_axis_size := model_axis_size self;
  train_batch_size := train_batch_size self;
  per_device_parallelism := v;
  per_device_eval_parallelism := per_device_eval_parallelism self;
  steps_per_eval := steps_per_eval self;
  max_eval_batches := max_eval_batches self;
|}.

Definition with_per_device_eval_parallelism (self : TrainerConfigSizes) (v : Z)
    : TrainerConfigSizes := {|
  model_axis_size := model_axis_size self;
  train_batch_size := train_batch_size self;
  per_device_parallelism := per_device_parallelism self;
  per_device_eval_parallelism := v;
  steps_per_eval := steps_per_eval self;
  max_eval_batches := max_eval_batches self;
|}.

Definition with_load_checkpoint_path (self : TrainerConfig) (path : option string)
    : TrainerConfig := {|
  mp := mp self;
  batch_axis := batch_axis self;
  fsdp_axis := fsdp_axis self;
  tensor_parallel_axes := tensor_parallel_axes self;
  axis_resources := axis_resources self;
  parameter_axis_resources := parameter_axis_resources self;
  num_train_steps := num_train_steps self;
  load_checkpoint := load_checkpoint self;
  load_checkpoint_path := path;
|}.

(** [TrainerConfig._validate_and_set_defaults].  The method assigns to the
    fields of [self] as it goes, so it returns the configuration as it stands
    when the method ends, whether it returns or raises.  [expanded_path] is
    [self.checkpointer.expanded_path(self.run_id)]. *)
Definition _validate_and_set_defaults (dev : Devices) (expanded_path : string)
    (cfg : TrainerConfig) (sz : TrainerConfigSizes)
    : TrainerConfig * TrainerConfigSizes * Result unit :=
  match py_mod (device_count dev) (model_axis_size sz) with
  | Raise e => (cfg, sz, Raise e)
  | Ok r =>
      if negb (r =? 0)%Z then
        (cfg, sz, Raise (ValueError "num_devices is not divisible by model_axis_size"))
      else
        let indivisible :=
          r1 ← py_mod (local_device_count dev) (model_axis_size sz);
          if negb (r1 =? 0)%Z
          then r2 ← py_mod (model_axis_size sz) (local_device_count dev);
               Ok (negb (r2 =? 0)%Z)
          else Ok false in
        match indivisible with
        | Raise e => (cfg, sz, Raise e)
        | Ok true =>
            (cfg, sz,
             Raise (ValueError
               "either model_axis_size or local_device_count must be divisible by the other"))
        | Ok false =>
            let defaulted :=
              if (per_device_parallelism sz =? -1)%Z
              then v ← py_floordiv (train_batch_size sz) (device_count dev);
                   Ok (with_per_device_parallelism sz v)
              else Ok sz in
            match defaulted with
            | Raise e => (cfg, sz, Raise e)
            | Ok sz =>
                let remainder :=
                  das ← data_axis_size dev sz;
                  py_mod (train_batch_size sz) (per_device_parallelism sz * das) in
                match remainder with
                | Raise e => (cfg, sz, Raise e)
                | Ok r3 =>
                    if negb (r3 =? 0)%Z then
                      (cfg, sz,
                       Raise (ValueError
                         "train_batch_size must be divisible by per_device_parallelism * data_axis_size"))
                    else
                      let sz :=
                        if (per_device_eval_parallelism sz =? -1)%Z
                        then with_per_device_eval_parallelism sz (per_device_parallelism sz)
                        else sz in
                      let cfg :=
                        match load_checkpoint_path cfg with
                        | None => with_load_checkpoint_path cfg (Some expanded_path)
                        | Some _ => cfg
                        end in
                      (cfg, sz, Ok ())
                end
            end
        end
  end.

(** ** Run names

    [wandb.run] is [None] before a run is started; a run has an optional
    display name and an id.  Python's [and] and [or] return one of their
    operands, chosen by truthiness: a string is true when it is not empty. *)

Module wandb.
Record Run : Type := {
  name : option string;
  id : string;
}.
End wandb.

Definition str_truthy (s : string) : bool := negb (String.eqb s "").

(** [wandb.run and (wandb.run.name or wandb.run.id) or "unnamed"] *)
Definition run_name (run : option wandb.Run) : string :=
  match run with
  | None => "unnamed"
  | Some r =>
      let name_or_id :=
        match wandb.name r with
        | Some n => if str_truthy n then n else wandb.id r
        | None => wandb.id r
        end in
      if str_truthy name_or_id then name_or_id else "unnamed"
  end.

(** [wandb.run and wandb.run.id or "unnamed"] *)
Definition run_id (run : option wandb.Run) : string :=
  match run with
  | None => "unnamed"
  | Some r => if str_truthy (wandb.id r) then wandb.id r else "unnamed"
  end.

(** ** Registering hooks on a trainer *)

Section DefaultHooks.
Context `{Collaborators}.

Definition with_hooks (self : Trainer) (hs : TrainerHooks) : Trainer := {|
  config := config self;
  optimizer := optimizer self;
  _raw_loss_function := _raw_loss_function self;
  is_trainable_param := is_trainable_param self;
  hooks := hs;
|}.

(** [Trainer.add_hook(fn, every=every)] *)
Definition Trainer_add_hook (self : Trainer) (f : StepInfo → World → Result World)
    (every : Z) : Trainer :=
  with_hooks self (add_hook (hooks self) f every).

(** The callbacks of [levanter.callbacks] and of the checkpointer that the
    default hooks register; [compute_validation_loss] is already applied to
    the evaluation loss, the loader and [max_eval_batches]. *)
Record Callbacks : Type := {
  pbar_logger : StepInfo → World → Result World;
  log_to_wandb : StepInfo → World → Result World;
  compute_validation_loss : StepInfo → World → Result World;
  wandb_xla_logger : StepInfo → World → Result World;
  checkpointer_on_step : StepInfo → World → Result World;
}.

(** [add_eval_hook(eval_loader)]; [eval_loader] is the truth value of the
    loader object. *)
Definition add_eval_hook (cb : Callbacks) (sz : TrainerConfigSizes) (self : Trainer)
    (eval_loader : bool) : Trainer :=
  if eval_loader
     && match max_eval_batches sz with
        | None => true
        | Some n => (0 <? n)%Z
        end
  then Trainer_add_hook self (compute_validation_loss cb) (steps_per_eval sz)
  else self.

Definition add_default_hooks (cb : Callbacks) (sz : TrainerConfigSizes) (self : Trainer)
    (eval_loader : bool) : Trainer :=
  let self := Trainer_add_hook self (pbar_logger cb) 1 in
  let self := Trainer_add_hook self (log_to_wandb cb) 1 in
  let self := add_eval_hook cb sz self eval_loader in
  let self := Trainer_add_hook self (wandb_xla_logger cb) (steps_per_eval sz) in
  Trainer_add_hook self (checkpointer_on_step cb) 1.
End DefaultHooks.

(** ** Holes of a tree and [eqx.filter] *)

(** Whether the path runs into a [None] of the tree. *)
Fixpoint none_on_path {A} (t : PyTree A) (path : list nat) : bool :=
  match t with
  | PNone => true
  | Leaf _ => false
  | Node _ kids =>
      match path with
      | [] => false
      | i :: path' =>
          match kids !! i with
          | Some kid => none_on_path kid path'
          | None => false
          end
      end
  end.

(** [eqx.filter(pytree, filter_spec)], with the default [inverse=False]. *)
Definition eqx_filter {A} (pytree : PyTree A) (filter_spec : PyTree (eqx.FilterSpec A))
    : option (PyTree A) :=
  filter_tree ← jtu.tree_map2 eqx._filter_tree filter_spec pytree;
  jtu.tree_map2 (λ (mask : bool) x, Some (if mask then x else PNone)) filter_tree pytree.

(** [_params_only(t)] *)
Definition _params_only `{Collaborators} (t : Model) : Result Model :=
  of_tree_op (eqx_filter t (Leaf (eqx.FCallable is_inexact_arrayish))).

(** ** More concrete instances *)

Definition demo_callbacks : @Callbacks (demo_collaborators (Ok None)) :=
  @Build_Callbacks (demo_collaborators (Ok None))
    (demo_log "pbar") (demo_log "wandb") (demo_log "eval") (demo_log "xla")
    (demo_log "checkpoint").

(** The defaults of [TrainerConfig] for the batch sizes, with evaluation
    every third step. *)
Definition demo_sizes : TrainerConfigSizes := {|
  model_axis_size := 1;
  train_batch_size := 512;
  per_device_parallelism := -1;
  per_device_eval_parallelism := -1;
  steps_per_eval := 3;
  max_eval_batches := None;
|}.

(** Eight devices on one host. *)
Definition demo_devices : Devices := {| device_count := 8; local_device_count := 8 |}.

(** * Properties *)

(** ** Partition and combine *)

Section PartitionCombine.
Context {A : Type}.
Implicit Types (m : PyTree A) (g : A → bool).

Lemma map2_opt_map_l {B C D} (f : B → C → option D) (h : C → B) (l : list C) (out : C → D) :
  Forall (λ c, f (h c) c = Some (out c)) l →
  map2_opt f (map h l) l = Some (map out l).
Proof.
  induction 1 as [|c l Hc _ IH]; simpl; [done|].
  by rewrite Hc, IH.
Qed.

Lemma left_of_leaf_mask g m :
  jtu.tree_map2 keep_left (jtu.tree_map (λ x, Leaf (g x)) m) m = Some (selected g m).
Proof.
  induction m as [x| |kind kids IH] using PyTree_nested_ind; simpl.
  - reflexivity.
  - done.
  - rewrite String.eqb_refl.
    by rewrite (map2_opt_map_l _ _ _ (selected g) IH).
Qed.

Lemma right_of_leaf_mask g m :
  jtu.tree_map2 keep_right (jtu.tree_map (λ x, Leaf (g x)) m) m = Some (rejected g m).
Proof.
  induction m as [x| |kind kids IH] using PyTree_nested_ind; simpl.
  - reflexivity.
  - done.
  - rewrite String.eqb_refl.
    by rewrite (map2_opt_map_l _ _ _ (rejected g) IH).
Qed.

Lemma combine_selected_rejected g m :
  eqx.combine (selected g m) (rejected g m) = Some m.
Proof.
  unfold eqx.combine, selected, rejected.
  induction m as [x| |kind kids IH] using PyTree_nested_ind; simpl.
  - by destruct (g x).
  - done.
  - rewrite String.eqb_refl.
    match goal with
    | |- Node kind <$> ?e = _ => assert (e = Some kids) as ->; [|done]
    end.
    induction IH as [|c l Hc _ IHl]; simpl; [done|].
    by rewrite Hc, IHl.
Qed.

(** Whenever the filter tree can be built, both halves exist and recombine
    to the model. *)
Lemma halves_of_filter_tree (spec : PyTree (eqx.FilterSpec A)) :
  ∀ m ft,
    jtu.tree_map2 eqx._filter_tree spec m = Some ft →
    ∃ l r,
      jtu.tree_map2 keep_left ft m = Some l ∧
      jtu.tree_map2 keep_right ft m = Some r ∧
      eqx.combine l r = Some m.
Proof.
  induction spec as [mask| |kind ps IH] using PyTree_nested_ind; intros m ft Hft.
  - simpl in Hft.
    destruct mask as [b|p]; simpl in Hft; injection Hft as <-.
    + exists (selected (λ _, b) m), (rejected (λ _, b) m).
      by rewrite left_of_leaf_mask, right_of_leaf_mask, combine_selected_rejected.
    + exists (selected p m), (rejected p m).
      by rewrite left_of_leaf_mask, right_of_leaf_mask, combine_selected_rejected.
  - destruct m; simpl in Hft; try done. injection Hft as <-.
    by exists PNone, PNone.
  - destruct m as [| |kind' ts]; simpl in Hft; try done.
    destruct (String.eqb kind kind') eqn:Hk; [|done].
    apply String.eqb_eq in Hk as <-.
    destruct (map2_opt (jtu.tree_map2 eqx._filter_tree) ps ts) as [fts|] eqn:Hfts;
      simpl in Hft; [|done].
    injection Hft as <-.
    assert (∃ ls rs,
               map2_opt (jtu.tree_map2 keep_left) fts ts = Some ls ∧
               map2_opt (jtu.tree_map2 keep_right) fts ts = Some rs ∧
               map2_opt (jtu.tree_map2_none_leaf eqx._combine) ls rs = Some ts)
      as (ls & rs & Hl & Hr & Hc).
    { clear kind. revert ts fts Hfts.
      induction IH as [|p ps Hp _ IHps]; intros ts fts Hfts.
      - destruct ts; simpl in Hfts; [|done]. injection Hfts as <-.
        by exists [], [].
      - destruct ts as [|t ts]; simpl in Hfts; [done|].
        destruct (jtu.tree_map2 eqx._filter_tree p t) as [ft|] eqn:Hft; [|done].
        destruct (map2_opt (jtu.tree_map2 eqx._filter_tree) ps ts) as [fts'|] eqn:Hfts';
          [|done].
        injection Hfts as <-.
        destruct (Hp _ _ Hft) as (l & r & Hl & Hr & Hc).
        destruct (IHps _ _ Hfts') as (ls & rs & Hls & Hrs & Hcs).
        exists (l :: ls), (r :: rs). simpl.
        unfold eqx.combine in Hc.
        by rewrite Hl, Hls, Hr, Hrs, Hc, Hcs. }
    exists (Node kind ls), (Node kind rs). unfold eqx.combine. simpl.
    rewrite String.eqb_refl.
    by rewrite Hl, Hr, Hc.
Qed.

Lemma eqx_partition_combine (m : PyTree A) (spec : PyTree (eqx.FilterSpec A)) l r :
  eqx.partition m spec = Some (l, r) → eqx.combine l r = Some m.
Proof.
  unfold eqx.partition. intros Hp.
  destruct (jtu.tree_map2 eqx._filter_tree spec m) as [ft|] eqn:Hft; simpl in Hp; [|done].
  destruct (halves_of_filter_tree _ _ _ Hft) as (l' & r' & Hl & Hr & Hc).
  change (λ (mask : bool) (x : PyTree A), Some (if mask then x else PNone))
    with (@keep_left A) in Hp.
  change (λ (mask : bool) (x : PyTree A), Some (if mask then PNone else x))
    with (@keep_right A) in Hp.
  rewrite Hl in Hp. simpl in Hp. rewrite Hr in Hp. simpl in Hp.
  by injection Hp as <- <-.
Qed.

(** A mask that is a single boolean or callable applies to any model. *)
Lemma eqx_partition_leaf_mask (m : PyTree A) (mask : eqx.FilterSpec A) :
  ∃ l r, eqx.partition m (Leaf mask) = Some (l, r).
Proof.
  unfold eqx.partition.
  change (λ (mask : bool) (x : PyTree A), Some (if mask then x else PNone))
    with (@keep_left A).
  change (λ (mask : bool) (x : PyTree A), Some (if mask then PNone else x))
    with (@keep_right A).
  simpl.
  destruct mask as [b|p]; simpl;
    rewrite left_of_leaf_mask; simpl; rewrite right_of_leaf_mask; simpl; eauto.
Qed.
Lemma eqx_partition_leaf_mask_eq (m : PyTree A) (mask : eqx.FilterSpec A) :
  eqx.partition m (Leaf mask)
  = Some (selected (spec_pred mask) m, rejected (spec_pred mask) m).
Proof.
  unfold eqx.partition.
  change (λ (mask : bool) (x : PyTree A), Some (if mask then x else PNone))
    with (@keep_left A).
  change (λ (mask : bool) (x : PyTree A), Some (if mask then PNone else x))
    with (@keep_right A).
  simpl.
  destruct mask as [b|p]; simpl;
    rewrite left_of_leaf_mask; simpl; rewrite right_of_leaf_mask; done.
Qed.

(** Leaf-wise maps of the two halves still recombine. *)
Lemma combine_mapped_halves (g : A → bool) (f1 f2 : A → A) (m : PyTree A) :
  eqx.combine (jtu.tree_map (λ x, Leaf (f1 x)) (selected g m))
              (jtu.tree_map (λ x, Leaf (f2 x)) (rejected g m))
  = Some (jtu.tree_map (λ x, Leaf (if g x then f1 x else f2 x)) m).
Proof.
  unfold eqx.combine, selected, rejected.
  induction m as [x| |kind kids IH] using PyTree_nested_ind; simpl.
  - by destruct (g x).
  - done.
  - rewrite String.eqb_refl.
    match goal with
    | |- Node kind <$> ?e = Some (Node kind ?ks) => assert (e = Some ks) as ->; [|done]
    end.
    induction IH as [|c l Hc _ IHl]; simpl; [done|].
    by rewrite Hc, IHl.
Qed.
End PartitionCombine.

Section TrainablePartition.
Context `{Collaborators}.

(** C1. For every model and every trainable mask, the two halves returned by
    [partition_trainable_params] recombine, through [eqx.combine], to the
    model the partition was given, in structure and in every leaf. *)
Theorem partition_combine_identity (self : Trainer) (m trainable rest : Model) :
  partition_trainable_params self m = Ok (trainable, rest) →
  eqx.combine trainable rest = Some m.
Proof.
  unfold partition_trainable_params, of_tree_op. intros Hp.
  destruct (eqx.partition m _) as [[l r]|] eqn:Hpart; [|done].
  injection Hp as -> ->.
  by eapply eqx_partition_combine.
Qed.

(** The partition cannot fail under a mask that is one boolean or one
    callable for the whole model, such as the default [is_trainable=True]. *)
Lemma partition_trainable_params_total (self : Trainer) (m : Model) pred :
  is_trainable_param self = Leaf pred →
  ∃ trainable rest, partition_trainable_params self m = Ok (trainable, rest).
Proof.
  intros Hmask. unfold partition_trainable_params. rewrite Hmask. simpl.
  destruct (eqx_partition_leaf_mask m (trainable_and_diffable pred)) as (l & r & ->).
  simpl. eauto.
Qed.

(** Inside the step function the loss is evaluated on the recombined halves,
    which is the model the step started from. *)
Lemma split_loss_fn_sees_model (self : Trainer) (m trainable rest : Model) batch key :
  partition_trainable_params self m = Ok (trainable, rest) →
  (model ← of_tree_op (eqx.combine trainable rest); loss_fn self model batch key)
  = loss_fn self m batch key.
Proof.
  unfold partition_trainable_params, of_tree_op. intros Hp.
  destruct (eqx.partition m _) as [[l r]|] eqn:Hpart; [|done].
  injection Hp as -> ->.
  by rewrite (eqx_partition_combine _ _ _ _ Hpart).
Qed.
End TrainablePartition.

Lemma partition_combine_identity_witness :
  let self := demo_trainer (H := demo_collaborators (Ok None)) (demo_config jmp.f32 None 2) demo_mask in
  let trainable := Node "Module" [Leaf (Array float32 1); PNone; PNone] in
  let rest := Node "Module" [PNone; Leaf (Array float32 2); Leaf (Array int32 3)] in
  partition_trainable_params self demo_model = Ok (trainable, rest) ∧
  eqx.combine trainable rest = Some demo_model.
Proof.
  intros self trainable rest.
  assert (partition_trainable_params self demo_model = Ok (trainable, rest)) as Hp
    by reflexivity.
  split; [exact Hp|].
  exact (partition_combine_identity self demo_model trainable rest Hp).
Defined.

(** ** The step engine *)

Section StepEngine.
Context `{Collaborators}.

Lemma delete_array_idemp (o : ObjectStore.Object) :
  ObjectStore.delete_array (ObjectStore.delete_array o) = ObjectStore.delete_array o.
Proof. by destruct o as [[]|]. Qed.

(** Donation touches the donated leaves and nothing else. *)
Lemma donate_lookup (heap : gmap positive ObjectStore.Object)
    (leaves : list positive) (l : positive) :
  ObjectStore.donate heap leaves !! l
  = if bool_decide (l ∈ leaves) then ObjectStore.delete_array <$> heap !! l else heap !! l.
Proof.
  unfold ObjectStore.donate.
  induction leaves as [|a leaves IH]; simpl; [done|].
  destruct (decide (l = a)) as [->|Hne].
  - rewrite lookup_alter_eq, IH.
    rewrite (bool_decide_eq_true_2 (a ∈ a :: leaves)) by left.
    case_bool_decide; [|done].
    destruct (heap !! a) as [o|]; simpl; [|done].
    by rewrite delete_array_idemp.
  - rewrite lookup_alter_ne by done. rewrite IH.
    rewrite (bool_decide_ext (l ∈ a :: leaves) (l ∈ leaves)); [done|].
    rewrite elem_of_cons. split; [by intros [?|?]|by right].
Qed.

Lemma donate_dom (heap : gmap positive ObjectStore.Object) (leaves : list positive) :
  dom (ObjectStore.donate heap leaves) = dom heap.
Proof.
  unfold ObjectStore.donate.
  induction leaves as [|a leaves IH]; simpl; [done|].
  by rewrite dom_alter_L.
Qed.

(** Reading a tree depends on the objects it refers to only. *)
Lemma read_tree_weaken (heap heap' : gmap positive ObjectStore.Object)
    (t : PyTree positive) :
  heap ⊆ heap' →
  ∀ v, ObjectStore.read_tree heap t = Ok v → ObjectStore.read_tree heap' t = Ok v.
Proof.
  intros Hsub.
  induction t as [l| |kind kids IH] using PyTree_nested_ind; intros v; simpl.
  - unfold ObjectStore.read_leaf, ObjectStore.loc.
    destruct (heap !! l) as [o|] eqn:Hl; [|by intros [=]].
    by rewrite (lookup_weaken _ _ _ _ Hl Hsub).
  - done.
  - destruct (ObjectStore.mapM (ObjectStore.read_tree heap) kids) as [vs|e] eqn:Hkids;
      simpl; [|done].
    intros [= <-].
    enough (ObjectStore.mapM (ObjectStore.read_tree heap') kids = Ok vs) as -> by done.
    clear kind. revert vs Hkids.
    induction IH as [|t kids Ht _ IHkids]; intros vs; simpl; [done|].
    destruct (ObjectStore.read_tree heap t) as [v|e] eqn:Hread; simpl; [|done].
    rewrite (Ht _ eq_refl). simpl.
    destruct (ObjectStore.mapM (ObjectStore.read_tree heap) kids) as [vs'|e]; simpl; [|done].
    by rewrite (IHkids _ eq_refl).
Qed.

(** Allocation extends the heap by objects that were not there and that hold
    the allocated tree. *)
Lemma alloc_tree_spec (t : PyTree Value) :
  ∀ (heap heap' : gmap positive ObjectStore.Object) (t' : PyTree positive),
    ObjectStore.alloc_tree t heap = (t', heap') →
    heap ⊆ heap'
    ∧ ObjectStore.read_tree heap' t' = Ok t
    ∧ Forall (λ l, l ∉ dom heap) (ObjectStore.tree_leaves t').
Proof.
  induction t as [x| |kind kids IH] using PyTree_nested_ind; intros heap heap' t'; simpl.
  - intros [= <- <-]. simpl.
    pose proof (is_fresh (dom heap)) as Hfresh.
    split_and!.
    + apply insert_subseteq. by apply not_elem_of_dom.
    + unfold ObjectStore.read_leaf. by rewrite lookup_insert_eq.
    + by repeat constructor.
  - intros [= <- <-]. by split_and!.
  - destruct (ObjectStore.alloc_list ObjectStore.alloc_tree kids heap)
      as [kids' heap1] eqn:Hkids.
    intros [= <- <-]. simpl.
    enough (heap ⊆ heap1
            ∧ ObjectStore.mapM (ObjectStore.read_tree heap1) kids' = Ok kids
            ∧ Forall (λ l, l ∉ dom heap) (concat (map ObjectStore.tree_leaves kids')))
      as (Hsub & -> & Hnew) by done.
    clear kind. revert heap heap1 kids' Hkids.
    induction IH as [|t kids Ht _ IHkids]; intros heap heap2 kids'; simpl.
    + intros [= <- <-]. by split_and!.
    + destruct (ObjectStore.alloc_tree t heap) as [t' heap1] eqn:Ht'.
      destruct (ObjectStore.alloc_list ObjectStore.alloc_tree kids heap1)
        as [ts' heap2'] eqn:Hts'.
      intros [= <- <-]. simpl.
      destruct (Ht _ _ _ Ht') as (Hsub1 & Hread1 & Hnew1).
      destruct (IHkids _ _ _ Hts') as (Hsub2 & Hread2 & Hnew2).
      split_and!.
      * by etrans.
      * rewrite (read_tree_weaken _ _ _ Hsub2 _ Hread1). simpl. by rewrite Hread2.
      * apply Forall_app. split; [done|].
        eapply Forall_impl; [exact Hnew2|]. simpl.
        intros l Hl Hin. apply Hl. revert Hin. by apply subseteq_dom.
Qed.

(** C2. A successful [train_step] on the state object [state] returns a
    [StepInfo] whose state is a newly allocated [TrainerState], one step
    further, made of new arrays that hold what the step computes from the
    input's arrays.  No attribute of an object that existed before the call,
    the input state among them, is assigned.  The arrays of the input's model
    and optimizer state are donated: where the platform donates they are
    deleted by the call, and every other object of the heap is as it was. *)
Theorem train_step_fresh_state (donation : bool) (self : Trainer)
    (objects objects' : gmap positive ObjectStore.TrainerState)
    (heap heap' : gmap positive ObjectStore.Object)
    (state : positive) (batch : Batch) (w : World) (info : ObjectStore.StepInfo) :
  ObjectStore.train_step donation self objects heap state batch w
  = Ok (objects', heap', info) →
  ∃ s s' m o m' o',
    objects !! state = Some s ∧
    ObjectStore.read_tree heap (ObjectStore.model s) = Ok m ∧
    ObjectStore.read_tree heap (ObjectStore.opt_state s) = Ok o ∧
    (ObjectStore.state info ∉ dom objects) ∧
    objects' !! ObjectStore.state info = Some s' ∧
    ObjectStore.step s' = (ObjectStore.step s + 1)%Z ∧
    Forall (λ l, l ∉ dom heap)
      (ObjectStore.tree_leaves (ObjectStore.model s')
       ++ ObjectStore.tree_leaves (ObjectStore.opt_state s')) ∧
    ObjectStore.read_tree heap' (ObjectStore.model s') = Ok m' ∧
    ObjectStore.read_tree heap' (ObjectStore.opt_state s') = Ok o' ∧
    train_step self
      {| step := ObjectStore.step s; model := m; opt_state := o;
         training_key := ObjectStore.training_key s |} batch w
    = Ok {| state := {| step := ObjectStore.step s'; model := m'; opt_state := o';
                        training_key := ObjectStore.training_key s' |};
            loss := ObjectStore.loss info;
            step_duration := ObjectStore.step_duration info |} ∧
    (∀ l, l ∈ dom objects → objects' !! l = objects !! l) ∧
    (∀ l, l ∈ dom heap →
       heap' !! l
       = if donation
            && bool_decide (l ∈ ObjectStore.tree_leaves (ObjectStore.model s)
                                ++ ObjectStore.tree_leaves (ObjectStore.opt_state s))
         then ObjectStore.delete_array <$> heap !! l
         else heap !! l).
Proof.
  unfold ObjectStore.train_step, ObjectStore.loc.
  destruct (objects !! state) as [s|] eqn:Hs; [|done].
  destruct (random_split (ObjectStore.training_key s)) as [key new_key] eqn:Hsplit.
  destruct (ObjectStore.read_tree heap (ObjectStore.model s)) as [m|e] eqn:Hm;
    simpl; [|done].
  destruct (ObjectStore.read_tree heap (ObjectStore.opt_state s)) as [o|e] eqn:Ho;
    simpl; [|done].
  destruct (_train_step_fn self m o batch key)
    as [[[l new_model] new_optstate]|e] eqn:Hfn; simpl; [|done].
  destruct (ObjectStore.alloc_tree new_model _) as [m_ref heap1] eqn:Hm'.
  destruct (ObjectStore.alloc_tree new_optstate heap1) as [o_ref heap2] eqn:Ho'.
  match type of Hm' with ObjectStore.alloc_tree _ ?h = _ => set (heap0 := h) in * end.
  intros [= <- <- <-]. simpl.
  destruct (alloc_tree_spec _ _ _ _ Hm') as (Hsub1 & Hread1 & Hnew1).
  destruct (alloc_tree_spec _ _ _ _ Ho') as (Hsub2 & Hread2 & Hnew2).
  assert (dom heap0 = dom heap) as Hdom.
  { unfold heap0. destruct donation; [apply donate_dom|done]. }
  pose proof (is_fresh (dom objects)) as Hfresh.
  eexists s, _, m, o, new_model, new_optstate.
  rewrite lookup_insert_eq. simpl.
  unfold train_step. simpl. rewrite Hsplit, Hfn. simpl.
  split_and!; try done.
  - apply Forall_app. split.
    + by rewrite <- Hdom.
    + eapply Forall_impl; [exact Hnew2|]. simpl.
      intros l' Hl' Hin. apply Hl'. apply (subseteq_dom _ _ Hsub1). by rewrite Hdom.
  - by apply (read_tree_weaken _ _ _ Hsub2).
  - intros l' Hl'. rewrite lookup_insert_ne; [done|]. by intros <-.
  - intros l' Hl'. unfold ObjectStore.loc in *.
    assert (heap2 !! l' = heap0 !! l') as ->.
    { rewrite <- Hdom in Hl'. apply elem_of_dom in Hl' as [x Hx].
      rewrite Hx. eapply lookup_weaken; [exact Hx|]. by etrans. }
    unfold heap0. destruct donation; simpl; [|done].
    apply donate_lookup.
Qed.
End StepEngine.

Lemma train_step_fresh_state_witness :
  let self := demo_trainer (H := demo_collaborators (Ok None)) (demo_config jmp.f32 None 2) demo_mask in
  ∃ objects' heap' info,
    ObjectStore.train_step true self demo_objects demo_heap 1%positive 5%Z []
    = Ok (objects', heap', info) ∧
    ∃ s s' m o m' o',
      demo_objects !! 1%positive = Some s ∧
      ObjectStore.read_tree demo_heap (ObjectStore.model s) = Ok m ∧
      ObjectStore.read_tree demo_heap (ObjectStore.opt_state s) = Ok o ∧
      (ObjectStore.state info ∉ dom demo_objects) ∧
      objects' !! ObjectStore.state info = Some s' ∧
      ObjectStore.step s' = (ObjectStore.step s + 1)%Z ∧
      Forall (λ l, l ∉ dom demo_heap)
        (ObjectStore.tree_leaves (ObjectStore.model s')
         ++ ObjectStore.tree_leaves (ObjectStore.opt_state s')) ∧
      ObjectStore.read_tree heap' (ObjectStore.model s') = Ok m' ∧
      ObjectStore.read_tree heap' (ObjectStore.opt_state s') = Ok o' ∧
      train_step self
        {| step := ObjectStore.step s; model := m; opt_state := o;
           training_key := ObjectStore.training_key s |} 5%Z []
      = Ok {| state := {| step := ObjectStore.step s'; model := m'; opt_state := o';
                          training_key := ObjectStore.training_key s' |};
              loss := ObjectStore.loss info;
              step_duration := ObjectStore.step_duration info |} ∧
      (∀ l, l ∈ dom demo_objects → objects' !! l = demo_objects !! l) ∧
      (∀ l, l ∈ dom demo_heap →
         heap' !! l
         = if true
              && bool_decide (l ∈ ObjectStore.tree_leaves (ObjectStore.model s)
                                  ++ ObjectStore.tree_leaves (ObjectStore.opt_state s))
           then ObjectStore.delete_array <$> demo_heap !! l
           else demo_heap !! l).
Proof.
  intros self. eexists _, _, _. split; [reflexivity|].
  apply (train_step_fresh_state (H := demo_collaborators (Ok None))). reflexivity.
Defined.

(** C2, as the specification words it, fails on a platform that donates: the
    input state is not left as it was.  Its attributes still hold the same
    references, but before the call its model can be read and after the call
    the arrays of its model are deleted, so that a second step from the same
    state raises. *)
Lemma train_step_donation_counterexample :
  let self := demo_trainer (H := demo_collaborators (Ok None)) (demo_config jmp.f32 None 2) demo_mask in
  ∃ objects' heap' info,
    ObjectStore.train_step true self demo_objects demo_heap 1%positive 5%Z []
    = Ok (objects', heap', info)
    ∧ objects' !! 1%positive = Some demo_state_object
    ∧ ObjectStore.read_tree demo_heap (ObjectStore.model demo_state_object) = Ok demo_model
    ∧ ObjectStore.read_tree heap' (ObjectStore.model demo_state_object)
      = Raise (RuntimeError "Array has been deleted")
    ∧ heap' !! 2%positive ≠ demo_heap !! 2%positive
    ∧ ObjectStore.train_step true self objects' heap' 1%positive 5%Z []
      = Raise (RuntimeError "Array has been deleted").
Proof.
  intros self. eexists _, _, _.
  split; [reflexivity|].
  split_and!; try reflexivity.
  by vm_compute.
Qed.

(** ** The hook registry *)

Section HookRegistry.
Context `{Collaborators}.

Lemma run_hooks_forced (hooks : TrainerHooks) info w :
  run_hooks hooks info true w = invoke_all hooks info w.
Proof.
  revert w. induction hooks as [|hook rest IH]; intros w; simpl; [done|].
  destruct (fn hook info w); simpl; [apply IH|done].
Qed.

Lemma run_hooks_unforced (hooks : TrainerHooks) info w :
  Forall (λ hook, every hook ≠ 0%Z) hooks →
  run_hooks hooks info false w = invoke_all (List.filter (fires info false) hooks) info w.
Proof.
  intros Hne. revert w. induction Hne as [|hook rest Hhook _ IH]; intros w; simpl; [done|].
  unfold py_mod, fires. apply Z.eqb_neq in Hhook. rewrite Hhook. simpl.
  destruct (StepInfo_step info mod every hook =? 0)%Z; simpl; [|apply IH].
  destruct (fn hook info w); simpl; [apply IH|done].
Qed.

(** A hook registered with period 0 makes an unforced run raise when its
    turn comes. *)
Lemma run_hooks_zero_period (hook : _Hook) (rest : TrainerHooks) info w :
  every hook = 0%Z →
  run_hooks (hook :: rest) info false w = Raise ZeroDivisionError.
Proof. intros Hzero. simpl. unfold py_mod. by rewrite Hzero. Qed.

(** C5. When firing is forced, or no registered hook has period 0, running
    the hooks on a step result is calling, in registration order, the
    callbacks of exactly the hooks selected by the rule: a hook with period
    [N] is selected iff firing is forced or the completed step,
    [result.state.step - 1], is divisible by [N].  Whether a hook is selected
    depends on the hook, the result and the flag only, not on the other hooks
    or on where it stands among them. *)
Theorem run_hooks_periodic (hooks : TrainerHooks) (info : StepInfo) (force : bool)
    (w : World) :
  force = true ∨ Forall (λ hook, every hook ≠ 0%Z) hooks →
  run_hooks hooks info force w = invoke_all (List.filter (fires info force) hooks) info w
  ∧ ∀ hook, In hook hooks →
      (In hook (List.filter (fires info force) hooks)
       ↔ force = true ∨ (every hook | step (state info) - 1)%Z).
Proof.
  intros Hok. split.
  - destruct force.
    + rewrite run_hooks_forced. f_equal.
      induction hooks as [|hook rest IH]; simpl; [done|].
      f_equal. apply IH. by left.
    + destruct Hok as [Hf|Hne]; [done|]. by apply run_hooks_unforced.
  - intros hook Hin. rewrite filter_In. unfold fires, StepInfo_step.
    split.
    + intros [_ Hfire]. destruct force; [by left|right]. simpl in Hfire.
      destruct Hok as [Hf|Hne]; [done|].
      rewrite Forall_forall in Hne.
      apply Z.eqb_eq in Hfire. apply Z.mod_divide in Hfire; [done|].
      apply Hne. by apply list_elem_of_In.
    + intros Hrule. split; [done|].
      destruct force; [done|]. simpl.
      destruct Hrule as [Hf|Hdiv]; [done|].
      destruct Hok as [Hf|Hne]; [done|].
      rewrite Forall_forall in Hne.
      apply Z.eqb_eq. apply Z.mod_divide; [|done].
      apply Hne. by apply list_elem_of_In.
Qed.
End HookRegistry.

Lemma run_hooks_periodic_witness :
  Forall (λ hook, every hook ≠ 0%Z) demo_hooks ∧
  run_hooks demo_hooks (demo_info 10) false [] = Ok ["every1"; "every3"].
Proof.
  assert (Forall (λ hook, every hook ≠ 0%Z) demo_hooks) as Hne
    by (repeat constructor; discriminate).
  split; [exact Hne|].
  destruct (run_hooks_periodic demo_hooks (demo_info 10) false [] (or_intror Hne)) as [-> _].
  reflexivity.
Defined.

(** C5, as the specification words it, fails on a hook list with a period of
    0, which nothing in the code excludes.  After step 9 the rule selects the
    hook with period 1 and not the one with period 0; the unforced run raises
    [ZeroDivisionError] instead, and the hook with period 1 is not called
    when it stands behind the other.  A hook that stands in front of the one
    with period 0 is called: its firing depends on its position. *)
Lemma run_hooks_zero_period_counterexample :
  let hook := @Build__Hook (demo_collaborators (Ok None)) in
  let every0 := hook (demo_log "every0") 0%Z in
  let every1 := hook (demo_log "every1") 1%Z in
  let probe := hook (λ _ _, Raise (ExternalError "probe called")) 1%Z in
  let info := demo_info 10 in
  (1 | step (state info) - 1)%Z
  ∧ ¬ (0 | step (state info) - 1)%Z
  ∧ invoke_all (List.filter (fires info false) [every0; every1]) info []
    = Ok ["every1"]
  ∧ run_hooks [every0; every1] info false [] = Raise ZeroDivisionError
  ∧ run_hooks [every0; every1] info false []
    ≠ invoke_all (List.filter (fires info false) [every0; every1]) info []
  ∧ run_hooks [probe; every0] info false [] = Raise (ExternalError "probe called")
  ∧ run_hooks [every0; probe] info false [] = Raise ZeroDivisionError.
Proof.
  intros hook every0 every1 probe info.
  split_and!; try reflexivity.
  - by exists 9%Z.
  - intros [k Hk]. simpl in Hk. lia.
  - discriminate.
Qed.

(** ** The training loop *)

Section TrainingLoop.
Context `{Collaborators}.

Lemma train_step_next_step (self : Trainer) state batch w info :
  train_step self state batch w = Ok info →
  step (StepInfo_state info) = (step state + 1)%Z.
Proof.
  unfold train_step.
  destruct (random_split (training_key state)) as [key new_key].
  destruct (_train_step_fn self (model state) (opt_state state) batch key)
    as [[[l new_model] new_optstate]|e]; simpl; [|done].
  by intros [= <-].
Qed.

(** The loop never runs out of fuel: any amount above the number of steps
    that remain gives the same run. *)
Lemma training_steps_loop_fuel (self : Trainer) (fuel1 fuel2 : nat) :
  ∀ state iter_data flag w,
    (Z.to_nat (num_train_steps (config self) - step state) < fuel1)%nat →
    (Z.to_nat (num_train_steps (config self) - step state) < fuel2)%nat →
    training_steps_loop fuel1 self state iter_data flag w
    = training_steps_loop fuel2 self state iter_data flag w.
Proof.
  revert fuel2. induction fuel1 as [|fuel1 IH]; intros fuel2 state iter_data flag w H1 H2;
    [lia|].
  destruct fuel2 as [|fuel2]; [lia|]. simpl.
  destruct (step state <? num_train_steps (config self))%Z eqn:Hlt; [|done].
  apply Z.ltb_lt in Hlt.
  destruct iter_data as [|example iter_data]; [done|].
  destruct (train_step self state example _) as [info|e] eqn:Hstep; [|done].
  apply train_step_next_step in Hstep.
  destruct flag.
  - destruct (run_hooks (hooks self) info false _) as [w'|e]; simpl; [|done].
    rewrite (IH fuel2); [done|rewrite Hstep; lia..].
  - rewrite (IH fuel2); [done|rewrite Hstep; lia..].
Qed.

(** C10. From a state whose step has already reached [num_train_steps] the
    generator [training_steps] ends without yielding any [StepInfo], and
    [train] raises, the loop variable [info] never having been bound, instead
    of returning a result. *)
Theorem train_without_remaining_steps (self : Trainer) (state : TrainerState)
    (train_loader : list Batch) (run_hooks_flag : bool) (w : World) :
  (num_train_steps (config self) ≤ step state)%Z →
  yielded (training_steps self state train_loader run_hooks_flag w) = []
  ∧ finished (training_steps self state train_loader run_hooks_flag w) = Ok ()
  ∧ train self state train_loader run_hooks_flag w = Raise (UnboundLocalError "info").
Proof.
  intros Hdone.
  assert (training_steps self state train_loader run_hooks_flag w
          = {| yielded := []; finished := Ok (); world := w |}) as Hgen.
  { unfold training_steps. simpl.
    apply Z.ltb_ge in Hdone. by rewrite Hdone. }
  unfold train. rewrite Hgen. simpl.
  by destruct run_hooks_flag.
Qed.
End TrainingLoop.

Lemma train_without_remaining_steps_witness :
  let self := demo_trainer (H := demo_collaborators (Ok None)) (demo_config jmp.f32 None 2) demo_mask in
  let state := {| step := 2; model := demo_model; opt_state := PNone;
                  training_key := 7%Z |} in
  (num_train_steps (config self) ≤ step state)%Z ∧
  yielded (training_steps self state [1%Z; 2%Z] true []) = [] ∧
  train self state [1%Z; 2%Z] true [] = Raise (UnboundLocalError "info").
Proof.
  intros self state.
  assert (num_train_steps (config self) ≤ step state)%Z as Hdone by (simpl; lia).
  split; [exact Hdone|].
  destruct (train_without_remaining_steps self state [1%Z; 2%Z] true [] Hdone)
    as (Hy & _ & Ht).
  split; [exact Hy|exact Ht].
Defined.

(** A run that has steps left does return: two steps from step 0. *)
Example train_two_steps :
  let self := demo_trainer (H := demo_collaborators (Ok None)) (demo_config jmp.f32 None 2) demo_mask in
  ∃ info w, train self demo_state [1%Z; 2%Z; 3%Z] true [] = Ok (info, w)
            ∧ step (state info) = 2%Z.
Proof. intros self. eexists _, _. split; reflexivity. Qed.

(** ** Checkpoint resume *)



Section Resume.
Context `{Collaborators}.


(** Under [load_checkpoint = False] neither the path nor the checkpointer
    plays a role. *)
Lemma maybe_load_checkpoint_forbidden (self : TrainerConfig) model training_state axis_mapping :
  load_checkpoint self = Some false →
  maybe_load_checkpoint self model training_state axis_mapping = Ok None.
Proof. unfold maybe_load_checkpoint. by intros ->. Qed.





(** C8. [initial_state] rejects its arguments exactly when both a model and
    an initializer are given or neither is; with exactly one of them the
    argument check passes and the call is the resume protocol on that
    argument. *)
Theorem initial_state_argument_check (self : Trainer) (key : PRNGKeyArray)
    (model : option Model) (model_init : option ModelInit) :
  match model, model_init with
  | Some _, Some _ =>
      initial_state self key model model_init
      = Raise (ValueError "only one of model and model_init should be specified")
  | None, None =>
      initial_state self key model model_init
      = Raise (ValueError "one of model and model_init must be specified")
  | Some m, None =>
      initial_state self key model model_init
      = initial_state_checked self key (Some m) (λ _, Ok m)
  | None, Some mi =>
      initial_state self key model model_init
      = initial_state_checked self key None mi
  end.
Proof. by destruct model, model_init. Qed.
End Resume.


(** A checkpointer that fails on every call shows that [False] does not call
    it, while the default does. *)
Example forbidden_does_not_call_checkpointer :
  let H := demo_collaborators (Raise (ExternalError "checkpointer called")) in
  maybe_load_checkpoint (demo_config jmp.f32 (Some false) 2) demo_model (PNone, 7%Z) ∅
  = Ok None
  ∧ maybe_load_checkpoint (demo_config jmp.f32 None 2) demo_model (PNone, 7%Z) ∅
    = Raise (ExternalError "checkpointer called").
Proof. split; reflexivity. Qed.

Section ResumeStep.
Context `{Collaborators}.

Lemma _init_model_and_opt_state_inv (self : Trainer) (model_init : ModelInit) m os :
  _init_model_and_opt_state self model_init = Ok (m, os) →
  ∃ m0 trainable rest,
    model_init () = Ok m0
    ∧ partition_trainable_params self m0 = Ok (trainable, rest)
    ∧ eqx.combine (jmp.cast_to_param (mp (config self)) trainable)
                  (jmp.cast_to_compute (mp (config self)) rest) = Some m
    ∧ os = init (optimizer self) (jmp.cast_to_param (mp (config self)) trainable).
Proof.
  unfold _init_model_and_opt_state.
  destruct (model_init ()) as [m0|e]; simpl; [|done].
  destruct (partition_trainable_params self m0) as [[t n]|e] eqn:Hp; simpl; [|done].
  destruct (eqx.combine _ _) as [m'|] eqn:Hc; simpl; [|done].
  intros [= <- <-]. by exists m0, t, n.
Qed.

(** The fresh path does return.  Under a mask that is one boolean or one
    callable for the whole model, with an initializer that returns and
    checkpoint loading switched off, [initial_state] returns the state at
    step 0. *)
Lemma initial_state_fresh_returns (self : Trainer) (key : PRNGKeyArray)
    (given : option Model) (mi : ModelInit) (m0 : Model) pred :
  is_trainable_param self = Leaf pred →
  mi () = Ok m0 →
  load_checkpoint (config self) = Some false →
  ∃ m os,
    initial_state_checked self key given mi
    = Ok {| step := 0; model := m; opt_state := os; training_key := key |}.
Proof.
  intros Hmask Hmi Hflag.
  assert (∀ m, partition_trainable_params self m
               = Ok (selected (spec_pred (trainable_and_diffable pred)) m,
                     rejected (spec_pred (trainable_and_diffable pred)) m)) as Hpart.
  { intros m. unfold partition_trainable_params. rewrite Hmask. simpl.
    by rewrite eqx_partition_leaf_mask_eq. }
  assert (∃ m os, _init_model_and_opt_state self mi = Ok (m, os)) as (m & os & Hinit).
  { unfold _init_model_and_opt_state. rewrite Hmi. simpl. rewrite Hpart. simpl.
    unfold jmp.cast_to_param, jmp.cast_to_compute, jmp._cast_floating_to.
    rewrite combine_mapped_halves. simpl. eauto. }
  exists m, os. unfold initial_state_checked, filter_eval_shape, trainable_params_only.
  rewrite Hinit. simpl. rewrite Hpart. simpl.
  by rewrite (maybe_load_checkpoint_forbidden _ _ _ _ Hflag).
Qed.
End ResumeStep.


(** Without a checkpoint the same call starts at step 0. *)
Example initial_state_fresh_example :
  let H := demo_collaborators (Ok None) in
  let self := demo_trainer (demo_config jmp.f32 None 100) demo_mask in
  ∃ st, initial_state self 7%Z (Some demo_model) None = Ok st
        ∧ step st = 0%Z
        ∧ opt_state st = Node "Module" [Leaf (Array float32 1); PNone; PNone].
Proof. intros H self. eexists. split_and!; reflexivity. Qed.

(** ** Precision on creation *)

(** A floating-point array that went through [cast_to_compute] has the
    compute dtype. *)
Lemma cast_to_compute_leaves (mp : jmp.Policy) (t : Model) :
  ∀ path d data,
    leaf_at (jmp.cast_to_compute mp t) path = Some (Array d data) →
    is_floating d = true →
    d = jmp.compute_dtype mp.
Proof.
  unfold jmp.cast_to_compute, jmp._cast_floating_to.
  induction t as [x| |kind kids IH] using PyTree_nested_ind; intros path d data Hleaf Hfl.
  - destruct path; simpl in Hleaf; [|done].
    destruct x as [d' data'| |]; simpl in Hleaf; try done.
    destruct (is_floating d') eqn:Hd'; injection Hleaf as <- <-; congruence.
  - by destruct path.
  - destruct path as [|i path]; simpl in Hleaf; [done|].
    rewrite list_lookup_fmap in Hleaf.
    destruct (kids !! i) as [kid|] eqn:Hkid; simpl in Hleaf; [|done].
    rewrite Forall_forall in IH.
    eapply IH; eauto. eapply list_elem_of_lookup_2; eauto.
Qed.

(** The non-trainable half that [_init_non_trainable_params] returns holds no
    floating-point array at another precision than compute. *)
Lemma _init_non_trainable_params_precision `{Collaborators} (self : Trainer)
    (model_init : ModelInit) non_trainable path d data :
  _init_non_trainable_params self model_init = Ok non_trainable →
  leaf_at non_trainable path = Some (Array d data) →
  is_floating d = true →
  d = jmp.compute_dtype (mp (config self)).
Proof.
  unfold _init_non_trainable_params.
  destruct (model_init ()) as [m|e]; simpl; [|done].
  destruct (partition_trainable_params self m) as [[t n]|e]; simpl; [|done].
  intros [= <-]. apply cast_to_compute_leaves.
Qed.

(** C9. Resuming from a checkpoint with a concrete model leaves the frozen
    float32 buffer of the model at float32, the param precision, under a
    policy whose compute precision is bfloat16; resuming with an initializer
    that returns the same model, and initialising afresh, both cast the
    buffer to bfloat16. *)
Example resume_with_model_skips_compute_cast :
  let found := demo_collaborators (Ok (Some demo_checkpoint)) in
  let missing := demo_collaborators (Ok None) in
  let cfg := demo_config mixed_policy None 100 in
  (∃ st, initial_state (demo_trainer (H := found) cfg demo_mask) 7%Z
           (Some demo_model) None = Ok st
         ∧ leaf_at (model st) [1%nat] = Some (Array float32 2))
  ∧ (∃ st, initial_state (demo_trainer (H := found) cfg demo_mask) 7%Z
             None (Some (λ _, Ok demo_model)) = Ok st
           ∧ leaf_at (model st) [1%nat] = Some (Array bfloat16 2))
  ∧ (∃ st, initial_state (demo_trainer (H := missing) cfg demo_mask) 7%Z
             (Some demo_model) None = Ok st
           ∧ leaf_at (model st) [1%nat] = Some (Array bfloat16 2)).
Proof. intros found missing cfg. split_and!; eexists; split; reflexivity. Qed.

(** ** Axis mappings *)

Lemma lookup_foldl_insert_const (v : string) (l : list string) :
  ∀ (m : gmap string string) (k : string),
    foldl (λ m axis, <[axis := v]> m) m l !! k
    = if decide (k ∈ l) then Some v else m !! k.
Proof.
  induction l as [|a l IH]; intros m k.
  - by rewrite decide_False by apply not_elem_of_nil.
  - change (foldl (λ m axis, <[axis := v]> m) (<[a := v]> m) l !! k
            = if decide (k ∈ a :: l) then Some v else m !! k).
    rewrite IH. destruct (decide (k ∈ l)) as [Hin|Hnin].
    + by rewrite decide_True by (apply elem_of_cons; by right).
    + destruct (decide (a = k)) as [->|Hne].
      * rewrite lookup_insert_eq.
        by rewrite decide_True by (apply elem_of_cons; by left).
      * rewrite lookup_insert_ne by done.
        rewrite decide_False; [done|].
        intros [Heq|Hin]%elem_of_cons; [congruence|done].
Qed.

Lemma foldl_insert_items (l : list (string * string)) :
  ∀ m : gmap string string,
    NoDup l.*1 →
    foldl (λ m item, <[item.1 := item.2]> m) m l = list_to_map l ∪ m.
Proof.
  induction l as [|[a v] l IH]; intros m Hnd.
  - change (m = ∅ ∪ m). by rewrite (left_id_L ∅ (∪)).
  - rewrite fmap_cons in Hnd. apply NoDup_cons in Hnd as [Hnin Hnd].
    change (foldl (λ m item, <[item.1 := item.2]> m) (<[a := v]> m) l
            = <[a := v]> (list_to_map l) ∪ m).
    rewrite IH by done.
    rewrite <- insert_union_l. symmetry. apply insert_union_r.
    by apply not_elem_of_list_to_map_1.
Qed.

(** C4. Override precedence of the axis mappings, as lookups.  The compute
    mapping sends the batch axis to the data axis, otherwise a tensor-parallel
    axis to the model axis, otherwise follows [axis_resources].  The parameter
    mapping sends every FSDP axis to the data axis, otherwise follows
    [parameter_axis_resources], otherwise the compute mapping: the rule
    applied later wins.  With [axis_resources={"x": "A"}] and
    [tensor_parallel_axes=["x"]] (and another batch axis) the compute mapping
    sends ["x"] to the model axis; with [fsdp_axis=["x"]] the parameter
    mapping sends it to the data axis. *)
Theorem axis_mapping_precedence (self : TrainerConfig) (axis : string) :
  compute_axis_mapping self !! axis
  = (if decide (batch_axis self = Some axis) then Some ResourceAxis.DATA
     else if decide (axis ∈ default [] (tensor_parallel_axes self))
          then Some ResourceAxis.MODEL
          else axis_resources self !! axis)
  ∧ parameter_axis_mapping self !! axis
    = (if decide (axis ∈ fsdp_names (fsdp_axis self)) then Some ResourceAxis.DATA
       else match parameter_axis_resources self !! axis with
            | Some resource => Some resource
            | None => compute_axis_mapping self !! axis
            end)
  ∧ (axis_resources self !! "x" = Some "A" →
     tensor_parallel_axes self = Some ["x"] →
     batch_axis self ≠ Some "x" →
     compute_axis_mapping self !! "x" = Some ResourceAxis.MODEL)
  ∧ (fsdp_axis self = Some (StrList ["x"]) →
     parameter_axis_mapping self !! "x" = Some ResourceAxis.DATA).
Proof.
  assert (∀ k, compute_axis_mapping self !! k
               = (if decide (batch_axis self = Some k) then Some ResourceAxis.DATA
                  else if decide (k ∈ default [] (tensor_parallel_axes self))
                       then Some ResourceAxis.MODEL
                       else axis_resources self !! k)) as Hcompute.
  { intros k. unfold compute_axis_mapping.
    destruct (batch_axis self) as [b|].
    - destruct (decide (b = k)) as [->|Hne].
      + rewrite lookup_insert_eq. by rewrite decide_True.
      + rewrite lookup_insert_ne by done.
        rewrite decide_False by congruence. apply lookup_foldl_insert_const.
    - rewrite decide_False by done. apply lookup_foldl_insert_const. }
  assert (∀ k, parameter_axis_mapping self !! k
               = (if decide (k ∈ fsdp_names (fsdp_axis self)) then Some ResourceAxis.DATA
                  else match parameter_axis_resources self !! k with
                       | Some resource => Some resource
                       | None => compute_axis_mapping self !! k
                       end)) as Hparam.
  { intros k. unfold parameter_axis_mapping.
    rewrite foldl_insert_items by apply NoDup_fst_map_to_list.
    rewrite list_to_map_to_list.
    assert (∀ m : gmap string string,
               (parameter_axis_resources self ∪ m) !! k
               = match parameter_axis_resources self !! k with
                 | Some resource => Some resource
                 | None => m !! k
                 end) as Hunion.
    { intros m. rewrite lookup_union.
      destruct (parameter_axis_resources self !! k), (m !! k); done. }
    destruct (fsdp_axis self) as [[s|l]|]; cbn [fsdp_names].
    - destruct (decide (s = k)) as [->|Hne].
      + rewrite lookup_insert_eq.
        by rewrite decide_True by (apply elem_of_cons; by left).
      + rewrite lookup_insert_ne by done.
        rewrite decide_False; [apply Hunion|].
        intros [Heq|Hin]%elem_of_cons; [congruence|by apply not_elem_of_nil in Hin].
    - rewrite lookup_foldl_insert_const.
      destruct (decide (k ∈ l)); [done|apply Hunion].
    - rewrite decide_False by apply not_elem_of_nil. apply Hunion. }
  split_and!; [apply Hcompute|apply Hparam| |].
  - intros Hx Htp Hbatch. rewrite Hcompute, Htp.
    rewrite decide_False by done.
    by rewrite decide_True by (apply elem_of_cons; by left).
  - intros Hfsdp. rewrite Hparam, Hfsdp.
    by rewrite decide_True by (apply elem_of_cons; by left).
Qed.

Lemma axis_mapping_precedence_witness :
  axis_resources override_config !! "x" = Some "A"
  ∧ compute_axis_mapping override_config !! "x" = Some "model"
  ∧ compute_axis_mapping override_config !! "b" = Some "data"
  ∧ parameter_axis_mapping override_config !! "x" = Some "data".
Proof.
  destruct (axis_mapping_precedence override_config "x") as (_ & _ & Hcompute & Hparam).
  destruct (axis_mapping_precedence override_config "b") as (Hb & _).
  split_and!.
  - reflexivity.
  - apply Hcompute; [reflexivity|reflexivity|discriminate].
  - rewrite Hb. reflexivity.
  - apply Hparam. reflexivity.
Defined.

(** The example of the specification, computed. *)
Example override_config_mappings :
  compute_axis_mapping override_config = {["x" := "model"; "b" := "data"]}
  ∧ parameter_axis_mapping override_config = {["x" := "data"; "b" := "data"]}.
Proof. split; vm_compute; reflexivity. Qed.

(** ** The learning-rate schedule *)

Section Schedule.
Local Open Scope R_scope.

Lemma join_warmup_schedule (warmup schedule : optax.Schedule) (boundary t : Z) :
  optax.join_schedules [warmup; schedule] [boundary] t
  = if (t <? boundary)%Z then warmup t else schedule (t - boundary)%Z.
Proof. reflexivity. Qed.

Lemma linear_schedule_ramp (init_value end_value : R) (steps t : Z) :
  (0 < steps)%Z → (0 ≤ t ≤ steps)%Z →
  optax.linear_schedule init_value end_value steps t
  = init_value + (end_value - init_value) * IZR t / IZR steps.
Proof.
  intros Hsteps Ht. unfold optax.linear_schedule.
  destruct (steps <=? 0)%Z eqn:Hle; [apply Z.leb_le in Hle; lia|].
  rewrite Z.max_l, Z.min_l by lia.
  assert (IZR steps ≠ 0) by (apply not_0_IZR; lia).
  field. done.
Qed.

Lemma cosine_decay_schedule_inv (init_value alpha : R) (decay_steps : Z) sched :
  optax.cosine_decay_schedule init_value decay_steps alpha = Ok sched →
  (0 < decay_steps)%Z
  ∧ ∀ count,
      sched count
      = init_value * ((1 - alpha)
                      * (0.5 * (1 + cos (PI * IZR (Z.min count decay_steps) / IZR decay_steps)))
                      + alpha).
Proof.
  unfold optax.cosine_decay_schedule.
  destruct (0 <? decay_steps)%Z eqn:Hpos; [|done].
  intros [= <-]. split; [by apply Z.ltb_lt|done].
Qed.

(** The schedule that [lr_scheduler] builds when there is a warmup: the
    warmup ramp joined with the decay schedule at [warmup_steps]. *)
Lemma lr_scheduler_with_warmup (self : OptimizerConfig) (n : Z) sched :
  (warmup_steps_of self n ≠ 0)%Z →
  lr_scheduler self n = Ok sched →
  ∃ decay,
    sched = optax.join_schedules
              [optax.linear_schedule 0 (learning_rate self) (warmup_steps_of self n); decay]
              [warmup_steps_of self n]
    ∧ (lr_schedule self = "constant" →
       decay = optax.constant_schedule (learning_rate self))
    ∧ (lr_schedule self = "cosine" →
       optax.cosine_decay_schedule (learning_rate self) (n - warmup_steps_of self n)
         (min_lr_ratio self) = Ok decay)
    ∧ (lr_schedule self = "linear" →
       decay = optax.linear_schedule (learning_rate self)
                 (learning_rate self * min_lr_ratio self)
                 (n - warmup_steps_of self n - warmup_steps_of self n)).
Proof.
  intros Hw. unfold lr_scheduler.
  apply Z.eqb_neq in Hw. rewrite Hw.
  destruct (String.eqb (lr_schedule self) "constant") eqn:Hconst.
  { apply String.eqb_eq in Hconst. simpl. intros [= <-].
    eexists. split; [done|]. rewrite Hconst. by split_and!. }
  destruct (String.eqb (lr_schedule self) "cosine") eqn:Hcos.
  { apply String.eqb_eq in Hcos.
    destruct (optax.cosine_decay_schedule _ _ _) as [decay|e] eqn:Hdecay; simpl; [|done].
    intros [= <-]. eexists. split; [done|]. rewrite Hcos. by split_and!. }
  destruct (String.eqb (lr_schedule self) "linear") eqn:Hlin; simpl; [|done].
  apply String.eqb_eq in Hlin. intros [= <-].
  eexists. split; [done|]. rewrite Hlin. by split_and!.
Qed.

(** C3, as the code has it.  Let [w = int(warmup_ratio * num_train_steps)],
    the product truncated.  Whenever [w] is positive, the schedule rises
    linearly from 0 at step 0 to [learning_rate] over the [w] warmup steps.
    After them the constant schedule stays at [learning_rate], and the cosine
    schedule starts from [learning_rate] and follows the half cosine over the
    remaining [num_train_steps - w] steps down to
    [learning_rate * min_lr_ratio], where it stays. *)
Theorem lr_scheduler_warmup_then_decay (self : OptimizerConfig) (n : Z)
    (sched : optax.Schedule) :
  (0 < warmup_steps_of self n)%Z →
  lr_scheduler self n = Ok sched →
  (∀ t, (0 ≤ t < warmup_steps_of self n)%Z →
        sched t = learning_rate self * IZR t / IZR (warmup_steps_of self n))
  ∧ (lr_schedule self = "constant" →
     ∀ t, (warmup_steps_of self n ≤ t)%Z → sched t = learning_rate self)
  ∧ (lr_schedule self = "cosine" →
     (warmup_steps_of self n < n)%Z
     ∧ sched (warmup_steps_of self n) = learning_rate self
     ∧ (∀ t, (warmup_steps_of self n ≤ t)%Z →
             sched t
             = learning_rate self
               * ((1 - min_lr_ratio self)
                  * (0.5 * (1 + cos (PI * IZR (Z.min (t - warmup_steps_of self n)
                                                     (n - warmup_steps_of self n))
                                     / IZR (n - warmup_steps_of self n))))
                  + min_lr_ratio self))
     ∧ (∀ t, (n ≤ t)%Z → sched t = learning_rate self * min_lr_ratio self)).
Proof.
  intros Hw Hsched.
  destruct (lr_scheduler_with_warmup self n sched) as (decay & -> & Hconst & Hcos & _);
    [lia|done|].
  set (w := warmup_steps_of self n) in *.
  split_and!.
  - intros t Ht. rewrite join_warmup_schedule.
    destruct (t <? w)%Z eqn:Hlt; [|apply Z.ltb_ge in Hlt; lia].
    rewrite linear_schedule_ramp by lia.
    assert (IZR w ≠ 0) by (apply not_0_IZR; lia). field. done.
  - intros Hkind t Ht. rewrite join_warmup_schedule, (Hconst Hkind).
    destruct (t <? w)%Z eqn:Hlt; [apply Z.ltb_lt in Hlt; lia|done].
  - intros Hkind.
    destruct (cosine_decay_schedule_inv _ _ _ _ (Hcos Hkind)) as [Hpos Hdecay].
    assert (∀ t, (w ≤ t)%Z →
              optax.join_schedules [optax.linear_schedule 0 (learning_rate self) w; decay] [w] t
              = decay (t - w)%Z) as Hafter.
    { intros t Ht. rewrite join_warmup_schedule.
      destruct (t <? w)%Z eqn:Hlt; [apply Z.ltb_lt in Hlt; lia|done]. }
    assert (IZR (n - w) ≠ 0) as Hne by (apply not_0_IZR; lia).
    split_and!.
    + lia.
    + rewrite Hafter, Hdecay by lia.
      rewrite Z.sub_diag, Z.min_l by lia.
      replace (PI * 0 / IZR (n - w)) with 0 by (field; done).
      rewrite cos_0. lra.
    + intros t Ht. by rewrite Hafter, Hdecay.
    + intros t Ht. rewrite Hafter, Hdecay by lia.
      rewrite Z.min_r by lia.
      replace (PI * IZR (n - w) / IZR (n - w)) with PI by (field; done).
      rewrite cos_PI. lra.
Qed.
End Schedule.

Lemma lr_scheduler_warmup_then_decay_witness :
  ∃ sched,
    (0 < warmup_steps_of boundary_config 1000)%Z
    ∧ lr_scheduler boundary_config 1000 = Ok sched
    ∧ sched 0%Z = 0%R
    ∧ sched 100%Z = (6 / 10000)%R
    ∧ sched 1000%Z = 0%R.
Proof.
  eexists.
  assert (0 < warmup_steps_of boundary_config 1000)%Z as Hw by reflexivity.
  split; [exact Hw|]. split; [reflexivity|].
  destruct (lr_scheduler_warmup_then_decay boundary_config 1000 _ Hw eq_refl)
    as (Hramp & _ & Hcos).
  destruct (Hcos eq_refl) as (_ & Hstart & _ & Hend).
  change (warmup_steps_of boundary_config 1000) with 100%Z in *.
  split_and!.
  - rewrite Hramp by lia. simpl. lra.
  - rewrite Hstart. reflexivity.
  - rewrite Hend by lia. simpl. lra.
Defined.

(** C3, as the specification words it, fails on the defaults with 99 steps:
    the warmup ratio 0.01 is positive and the rounded product is 1, yet the
    truncated product is 0, no warmup is built and the schedule starts at
    the full learning rate. *)
Lemma lr_scheduler_round_counterexample :
  (0 < warmup_ratio default_optimizer_config)%Q
  ∧ spec_warmup_steps default_optimizer_config 99 = 1%Z
  ∧ warmup_steps_of default_optimizer_config 99 = 0%Z
  ∧ ∃ sched,
      lr_scheduler default_optimizer_config 99 = Ok sched
      ∧ sched 0%Z = learning_rate default_optimizer_config
      ∧ sched 0%Z ≠ 0%R.
Proof.
  split_and!; [reflexivity..|].
  eexists. split; [reflexivity|].
  simpl.
  change (warmup_steps_of default_optimizer_config 99) with 0%Z.
  change (0 `min` (99 - 0))%Z with 0%Z.
  replace (PI * 0 / IZR (99 - 0))%R with 0%R by (simpl; lra).
  rewrite cos_0. split; lra.
Qed.

(** The linear schedule after a warmup: the code hands [optax.linear_schedule]
    the decay steps less the warmup steps once more, so the decay is over at
    step [num_train_steps - warmup_steps].  With 10 steps of which 2 are
    warmup, the minimum is reached at step 8. *)
Lemma lr_scheduler_linear_decay (self : OptimizerConfig) (n : Z) sched :
  lr_schedule self = "linear" →
  (0 < warmup_steps_of self n)%Z →
  (2 * warmup_steps_of self n < n)%Z →
  lr_scheduler self n = Ok sched →
  ∀ t, (n - warmup_steps_of self n ≤ t)%Z →
       sched t = (learning_rate self * min_lr_ratio self)%R.
Proof.
  intros Hkind Hw Hn Hsched t Ht.
  destruct (lr_scheduler_with_warmup self n sched) as (decay & -> & _ & _ & Hlin);
    [lia|done|].
  rewrite join_warmup_schedule, (Hlin Hkind).
  destruct (t <? warmup_steps_of self n)%Z eqn:Hlt; [apply Z.ltb_lt in Hlt; lia|].
  unfold optax.linear_schedule.
  destruct (_ <=? 0)%Z eqn:Hle; [apply Z.leb_le in Hle; lia|].
  rewrite Z.max_l, Z.min_r by lia.
  assert (IZR (n - warmup_steps_of self n - warmup_steps_of self n) ≠ 0%R)
    by (apply not_0_IZR; lia).
  field. done.
Qed.

Example linear_decay_ends_early :
  ∃ sched, lr_scheduler linear_config 10 = Ok sched ∧ sched 8%Z = 0%R.
Proof.
  eexists. split; [reflexivity|].
  rewrite (lr_scheduler_linear_decay linear_config 10 _ eq_refl); [simpl; lra|..];
    first [reflexivity | change (warmup_steps_of linear_config 10) with 2%Z; lia].
Qed.

(** * Further properties *)

(** ** Runs of the training loop *)

Section LoopRuns.
Context `{Collaborators}.

(** One turn of the loop: it stops because no step is left, it stops on an
    exception before yielding, or it yields and goes on from the new state. *)
Lemma training_steps_loop_cases (fuel : nat) (self : Trainer) (state : TrainerState)
    (iter_data : list Batch) (flag : bool) (w : World) :
  ((num_train_steps (config self) ≤ step state)%Z
   ∧ training_steps_loop (S fuel) self state iter_data flag w
     = {| yielded := []; finished := Ok (); world := w |})
  ∨ ((step state < num_train_steps (config self))%Z
     ∧ yielded (training_steps_loop (S fuel) self state iter_data flag w) = []
     ∧ ∃ e, finished (training_steps_loop (S fuel) self state iter_data flag w) = Raise e)
  ∨ ((step state < num_train_steps (config self))%Z
     ∧ ∃ example iter_data' info w1 w2,
         iter_data = example :: iter_data'
         ∧ train_step self state example w1 = Ok info
         ∧ (flag = true → run_hooks (hooks self) info false w1 = Ok w2)
         ∧ yielded (training_steps_loop (S fuel) self state iter_data flag w)
           = info :: yielded (training_steps_loop fuel self (StepInfo_state info)
                                iter_data' flag
                                (if flag
                                 then wandb_log "throughput/hook_time" (clock w2)
                                        (step (StepInfo_state info)) w2
                                 else w1))
         ∧ finished (training_steps_loop (S fuel) self state iter_data flag w)
           = finished (training_steps_loop fuel self (StepInfo_state info)
                         iter_data' flag
                         (if flag
                          then wandb_log "throughput/hook_time" (clock w2)
                                 (step (StepInfo_state info)) w2
                          else w1))
         ∧ world (training_steps_loop (S fuel) self state iter_data flag w)
           = world (training_steps_loop fuel self (StepInfo_state info)
                      iter_data' flag
                      (if flag
                       then wandb_log "throughput/hook_time" (clock w2)
                              (step (StepInfo_state info)) w2
                       else w1))).
Proof.
  simpl.
  destruct (step state <? num_train_steps (config self))%Z eqn:Hlt.
  2:{ left. apply Z.ltb_ge in Hlt. done. }
  apply Z.ltb_lt in Hlt. right.
  destruct iter_data as [|example iter_data']; [left; eauto|].
  destruct (train_step self state example _) as [info|e] eqn:Hstep; [|left; eauto].
  destruct flag.
  - destruct (run_hooks (hooks self) info false _) as [w2|e] eqn:Hhooks; simpl;
      [|left; eauto].
    right. split; [done|]. eexists _, _, _, _, w2. split_and!; try done.
  - right. split; [done|]. eexists _, _, _, _, w. split_and!; try done.
Qed.

Lemma training_steps_loop_steps (self : Trainer) (flag : bool) (fuel : nat) :
  ∀ state iter_data w (i : nat) info,
    yielded (training_steps_loop fuel self state iter_data flag w) !! i = Some info →
    step (StepInfo_state info) = (step state + Z.of_nat i + 1)%Z
    ∧ (step state + Z.of_nat i < num_train_steps (config self))%Z.
Proof.
  induction fuel as [|fuel IH]; intros state iter_data w i info Hi; [done|].
  destruct (training_steps_loop_cases fuel self state iter_data flag w)
    as [[_ Hg]|[(_ & Hg & _)|(Hlt & ex & it' & info0 & w1 & w2 & _ & Hstep & _ & Hy & _)]].
  - by rewrite Hg in Hi.
  - by rewrite Hg in Hi.
  - rewrite Hy in Hi. apply train_step_next_step in Hstep.
    destruct i as [|i]; simpl in Hi.
    + injection Hi as <-. split; lia.
    + apply IH in Hi as [Hs Hb]. split; lia.
Qed.

Lemma training_steps_loop_length (self : Trainer) (flag : bool) (fuel : nat) :
  ∀ state iter_data w,
    (length (yielded (training_steps_loop fuel self state iter_data flag w))
     ≤ length iter_data)%nat.
Proof.
  induction fuel as [|fuel IH]; intros state iter_data w; [simpl; lia|].
  destruct (training_steps_loop_cases fuel self state iter_data flag w)
    as [[_ Hg]|[(_ & Hg & _)|(Hlt & ex & it' & info0 & w1 & w2 & -> & _ & _ & Hy & _)]].
  - rewrite Hg. simpl. lia.
  - rewrite Hg. simpl. lia.
  - rewrite Hy. simpl. specialize (IH (StepInfo_state info0) it'
      (if flag then wandb_log "throughput/hook_time" (clock w2)
                      (step (StepInfo_state info0)) w2 else w1)). lia.
Qed.

Lemma training_steps_loop_finished (self : Trainer) (flag : bool) (fuel : nat) :
  ∀ state iter_data w,
    (Z.to_nat (num_train_steps (config self) - step state) < fuel)%nat →
    finished (training_steps_loop fuel self state iter_data flag w) = Ok () →
    length (yielded (training_steps_loop fuel self state iter_data flag w))
    = Z.to_nat (num_train_steps (config self) - step state).
Proof.
  induction fuel as [|fuel IH]; intros state iter_data w Hfuel Hfin; [lia|].
  destruct (training_steps_loop_cases fuel self state iter_data flag w)
    as [[Hge Hg]|[(_ & _ & e & He)|(Hlt & ex & it' & info0 & w1 & w2 & _ & Hstep & _
                                     & Hy & Hf & _)]].
  - rewrite Hg. simpl. lia.
  - congruence.
  - rewrite Hy. simpl. apply train_step_next_step in Hstep.
    rewrite Hf in Hfin. rewrite IH; [lia|lia|done].
Qed.

(** X1. The results that [training_steps] yields are for consecutive steps:
    the [i]-th one reports the completed step [state.step + i], which is below
    [num_train_steps], whatever the loader, the hooks and the step function
    do. *)
Theorem training_steps_consecutive (self : Trainer) (state : TrainerState)
    (train_loader : list Batch) (flag : bool) (w : World) (i : nat) (info : StepInfo) :
  yielded (training_steps self state train_loader flag w) !! i = Some info →
  StepInfo_step info = (step state + Z.of_nat i)%Z
  ∧ StepInfo_next_step info = (step state + Z.of_nat i + 1)%Z
  ∧ (StepInfo_step info < num_train_steps (config self))%Z.
Proof.
  intros Hi. apply training_steps_loop_steps in Hi as [Hs Hb].
  unfold StepInfo_step, StepInfo_next_step, StepInfo_state in *. lia.
Qed.

(** X2. A run of [training_steps] that ends without an exception has yielded
    one result for every step that was left, no more and no fewer, and has
    consumed as many batches; a run never yields more results than the loader
    has batches. *)
Theorem training_steps_complete (self : Trainer) (state : TrainerState)
    (train_loader : list Batch) (flag : bool) (w : World) :
  (length (yielded (training_steps self state train_loader flag w))
   ≤ length train_loader)%nat
  ∧ (finished (training_steps self state train_loader flag w) = Ok () →
     length (yielded (training_steps self state train_loader flag w))
     = Z.to_nat (num_train_steps (config self) - step state)).
Proof.
  split; [apply training_steps_loop_length|].
  apply training_steps_loop_finished. lia.
Qed.

(** X3. When [train] returns, the state it returns is exactly at
    [num_train_steps], the run started below it, and the result is the last
    one that [training_steps] yielded. *)
Theorem train_returns_final_step (self : Trainer) (state : TrainerState)
    (train_loader : list Batch) (flag : bool) (w w' : World) (info : StepInfo) :
  train self state train_loader flag w = Ok (info, w') →
  step (StepInfo_state info) = num_train_steps (config self)
  ∧ (step state < num_train_steps (config self))%Z
  ∧ last (yielded (training_steps self state train_loader flag w)) = Some info.
Proof.
  unfold train. intros Htrain.
  destruct (finished (training_steps self state train_loader flag w)) as [[]|e] eqn:Hfin;
    simpl in Htrain; [|done].
  destruct (last (yielded (training_steps self state train_loader flag w)))
    as [info0|] eqn:Hlast.
  2:{ by destruct flag. }
  assert (info0 = info) as ->.
  { destruct flag; simpl in Htrain.
    - destruct (run_hooks (hooks self) info0 true _); simpl in Htrain; [|done].
      by injection Htrain as ->.
    - by injection Htrain as ->. }
  assert (length (yielded (training_steps self state train_loader flag w))
          = Z.to_nat (num_train_steps (config self) - step state)) as Hlen
    by (apply training_steps_loop_finished; [lia|done]).
  pose proof Hlast as Hlookup. rewrite last_lookup in Hlookup.
  pose proof (lookup_lt_Some _ _ _ Hlookup) as Hlt.
  apply training_steps_loop_steps in Hlookup as [Hs Hb].
  split_and!; [lia|lia|done].
Qed.

(** X4. A loader with fewer batches than there are steps left makes [train]
    raise: it cannot return a result. *)
Theorem train_short_loader_raises (self : Trainer) (state : TrainerState)
    (train_loader : list Batch) (flag : bool) (w : World) :
  (Z.of_nat (length train_loader) < num_train_steps (config self) - step state)%Z →
  ∃ e, train self state train_loader flag w = Raise e.
Proof.
  intros Hshort.
  destruct (train self state train_loader flag w) as [[info w']|e] eqn:Htrain; [|eauto].
  exfalso. unfold train in Htrain.
  destruct (finished (training_steps self state train_loader flag w)) as [[]|e] eqn:Hfin;
    simpl in Htrain; [|done].
  assert (length (yielded (training_steps self state train_loader flag w))
          = Z.to_nat (num_train_steps (config self) - step state)) as Hlen
    by (apply training_steps_loop_finished; [lia|done]).
  pose proof (training_steps_loop_length self flag
                (S (Z.to_nat (num_train_steps (config self) - step state)))
                state train_loader w) as Hle.
  unfold training_steps in Hlen. lia.
Qed.
End LoopRuns.

Lemma training_steps_consecutive_witness :
  let self := demo_trainer (H := demo_collaborators (Ok None)) (demo_config jmp.f32 None 3) demo_mask in
  ∃ info,
    yielded (training_steps self demo_state [1%Z; 2%Z; 3%Z] true []) !! 1%nat = Some info
    ∧ StepInfo_step info = (step demo_state + Z.of_nat 1)%Z
    ∧ StepInfo_next_step info = (step demo_state + Z.of_nat 1 + 1)%Z
    ∧ (StepInfo_step info < num_train_steps (config self))%Z.
Proof.
  intros self. eexists. split; [reflexivity|].
  apply (training_steps_consecutive self demo_state [1%Z; 2%Z; 3%Z] true []). reflexivity.
Defined.

Lemma train_returns_final_step_witness :
  let self := demo_trainer (H := demo_collaborators (Ok None)) (demo_config jmp.f32 None 2) demo_mask in
  ∃ info w',
    train self demo_state [1%Z; 2%Z; 3%Z] true [] = Ok (info, w')
    ∧ step (StepInfo_state info) = num_train_steps (config self)
    ∧ (step demo_state < num_train_steps (config self))%Z
    ∧ last (yielded (training_steps self demo_state [1%Z; 2%Z; 3%Z] true [])) = Some info.
Proof.
  intros self. eexists _, _. split; [reflexivity|].
  eapply (train_returns_final_step self demo_state [1%Z; 2%Z; 3%Z] true []). reflexivity.
Defined.

Lemma train_short_loader_raises_witness :
  let self := demo_trainer (H := demo_collaborators (Ok None)) (demo_config jmp.f32 None 2) demo_mask in
  (Z.of_nat (length [1%Z]) < num_train_steps (config self) - step demo_state)%Z
  ∧ ∃ e, train self demo_state [1%Z] true [] = Raise e.
Proof.
  intros self.
  assert (Z.of_nat (length [1%Z]) < num_train_steps (config self) - step demo_state)%Z
    as Hshort by (simpl; lia).
  split; [exact Hshort|].
  exact (train_short_loader_raises self demo_state [1%Z] true [] Hshort).
Defined.

(** The exception of a loader that runs dry is the [RuntimeError] into which
    the generator turns [StopIteration]. *)
Example train_short_loader_example :
  let self := demo_trainer (H := demo_collaborators (Ok None)) (demo_config jmp.f32 None 2) demo_mask in
  train self demo_state [1%Z] true []
  = Raise (RuntimeError "generator raised StopIteration").
Proof. reflexivity. Qed.

Section HooksOnTrainer.
Context `{Collaborators}.

Lemma run_hooks_app (hooks1 hooks2 : TrainerHooks) info force w :
  run_hooks (hooks1 ++ hooks2) info force w
  = (w' ← run_hooks hooks1 info force w; run_hooks hooks2 info force w').
Proof.
  revert w. induction hooks1 as [|hook rest IH]; intros w; simpl; [done|].
  destruct (if force then Ok true else _) as [[]|e]; simpl; [|apply IH|done].
  destruct (fn hook info w); simpl; [apply IH|done].
Qed.

(** X5. A hook added with [add_hook] runs after all hooks registered before
    it: running the extended registry is running the old registry and then,
    if no callback raised, the new hook under the same firing rule. *)
Theorem run_hooks_add_hook (hooks : TrainerHooks) (f : StepInfo → World → Result World)
    (n : Z) (info : StepInfo) (force : bool) (w : World) :
  run_hooks (add_hook hooks f n) info force w
  = (w' ← run_hooks hooks info force w;
     run_hooks [{| fn := f; every := n |}] info force w').
Proof. unfold add_hook. apply run_hooks_app. Qed.

Lemma train_step_with_hooks (self : Trainer) (hs : TrainerHooks) state batch w :
  train_step (with_hooks self hs) state batch w = train_step self state batch w.
Proof. reflexivity. Qed.

Lemma training_steps_loop_without_hooks (self : Trainer) (hs : TrainerHooks) (fuel : nat) :
  ∀ state iter_data w,
    training_steps_loop fuel (with_hooks self hs) state iter_data false w
    = training_steps_loop fuel self state iter_data false w.
Proof.
  induction fuel as [|fuel IH]; intros state iter_data w; [done|].
  simpl. destruct (step state <? _)%Z; [|done].
  destruct iter_data as [|example iter_data']; [done|].
  rewrite train_step_with_hooks.
  destruct (train_step self state example _) as [info|e]; [|done].
  by rewrite IH.
Qed.

(** X6. With [run_hooks=False] the registered hooks play no part in [train]:
    whatever hooks the trainer has, the result and the outside world are the
    same. *)
Theorem train_without_hooks (self : Trainer) (hs : TrainerHooks) (state : TrainerState)
    (train_loader : list Batch) (w : World) :
  train (with_hooks self hs) state train_loader false w
  = train self state train_loader false w.
Proof.
  unfold train, training_steps.
  change (config (with_hooks self hs)) with (config self).
  by rewrite training_steps_loop_without_hooks.
Qed.

(** X7. When [train] returns with [run_hooks=True], every registered hook was
    called once more on the final result, in registration order and whatever
    its period, after the generator had finished. *)
Theorem train_forces_final_hooks (self : Trainer) (state : TrainerState)
    (train_loader : list Batch) (w w' : World) (info : StepInfo) :
  train self state train_loader true w = Ok (info, w') →
  invoke_all (hooks self) info (world (training_steps self state train_loader true w))
  = Ok w'.
Proof.
  unfold train. intros Htrain.
  destruct (finished (training_steps self state train_loader true w)) as [[]|e];
    simpl in Htrain; [|done].
  destruct (last (yielded (training_steps self state train_loader true w))) as [info0|];
    simpl in Htrain; [|done].
  rewrite run_hooks_forced in Htrain.
  destruct (invoke_all (hooks self) info0 _) as [w0|e] eqn:Hinv; simpl in Htrain; [|done].
  by injection Htrain as -> ->.
Qed.
End HooksOnTrainer.

Lemma train_forces_final_hooks_witness :
  let H := demo_collaborators (Ok None) in
  let self := with_hooks (demo_trainer (demo_config jmp.f32 None 2) demo_mask) demo_hooks in
  ∃ info w',
    train self demo_state [1%Z; 2%Z] true [] = Ok (info, w')
    ∧ invoke_all (hooks self) info (world (training_steps self demo_state [1%Z; 2%Z] true []))
      = Ok w'.
Proof.
  intros H self. eexists _, _. split; [reflexivity|].
  eapply (train_forces_final_hooks self demo_state [1%Z; 2%Z] []). reflexivity.
Defined.

(** ** The default hooks *)

Section DefaultHooksFiring.
Context `{Collaborators}.

Lemma run_hooks_every_one (f : StepInfo → World → Result World) (rest : TrainerHooks)
    info w :
  run_hooks ({| fn := f; every := 1 |} :: rest) info false w
  = (w' ← f info w; run_hooks rest info false w').
Proof.
  simpl. unfold py_mod. simpl. by rewrite Z.mod_1_r.
Qed.

Lemma run_hooks_every (f : StepInfo → World → Result World) (n : Z) (rest : TrainerHooks)
    info w :
  n ≠ 0%Z →
  run_hooks ({| fn := f; every := n |} :: rest) info false w
  = if (StepInfo_step info mod n =? 0)%Z
    then w' ← f info w; run_hooks rest info false w'
    else run_hooks rest info false w.
Proof.
  intros Hn. simpl. unfold py_mod. apply Z.eqb_neq in Hn. rewrite Hn. simpl.
  by destruct (StepInfo_step info mod n =? 0)%Z.
Qed.

Lemma add_default_hooks_list (cb : Callbacks) (sz : TrainerConfigSizes)
    (self : Trainer) (eval_loader : bool) :
  hooks self = [] →
  hooks (add_default_hooks cb sz self eval_loader)
  = {| fn := pbar_logger cb; every := 1 |}
    :: {| fn := log_to_wandb cb; every := 1 |}
    :: (if eval_loader
           && match max_eval_batches sz with
              | None => true
              | Some n => (0 <? n)%Z
              end
        then [{| fn := compute_validation_loss cb; every := steps_per_eval sz |}]
        else [])
    ++ [{| fn := wandb_xla_logger cb; every := steps_per_eval sz |};
        {| fn := checkpointer_on_step cb; every := 1 |}].
Proof.
  intros Hempty.
  unfold add_default_hooks, add_eval_hook, Trainer_add_hook, add_hook.
  destruct (eval_loader && _); simpl; by rewrite Hempty.
Qed.

(** X8. The default hooks on a trainer without hooks.  With a non-zero
    [steps_per_eval], after every step the progress bar, the wandb logger and
    the checkpointer are called, in this order; after the steps whose number
    [steps_per_eval] divides, the evaluation (when an evaluation loader is
    given and [max_eval_batches] is [None] or positive) and the XLA logger are
    called between the wandb logger and the checkpointer.  With
    [steps_per_eval = 0] every unforced run of the hooks raises. *)
Theorem add_default_hooks_firing (cb : Callbacks) (sz : TrainerConfigSizes)
    (self : Trainer) (eval_loader : bool) (info : StepInfo) (w : World) :
  hooks self = [] →
  (steps_per_eval sz ≠ 0%Z →
   run_hooks (hooks (add_default_hooks cb sz self eval_loader)) info false w
   = if (StepInfo_step info mod steps_per_eval sz =? 0)%Z
     then w ← pbar_logger cb info w;
          w ← log_to_wandb cb info w;
          w ← (if eval_loader
                  && match max_eval_batches sz with
                     | None => true
                     | Some n => (0 <? n)%Z
                     end
               then compute_validation_loss cb info w
               else Ok w);
          w ← wandb_xla_logger cb info w;
          checkpointer_on_step cb info w
     else w ← pbar_logger cb info w;
          w ← log_to_wandb cb info w;
          checkpointer_on_step cb info w)
  ∧ (steps_per_eval sz = 0%Z →
     ∃ e, run_hooks (hooks (add_default_hooks cb sz self eval_loader)) info false w
          = Raise e).
Proof.
  intros Hempty. rewrite (add_default_hooks_list _ _ _ _ Hempty). split.
  - intros Hn. rewrite run_hooks_unforced.
    2:{ destruct (eval_loader && _); simpl;
        repeat first [ apply List.Forall_nil
                     | apply List.Forall_cons; [simpl; first [exact Hn | discriminate]|] ]. }
    unfold fires.
    destruct (eval_loader && _); simpl;
      rewrite Z.mod_1_r; simpl;
      destruct (StepInfo_step info mod steps_per_eval sz =? 0)%Z; simpl;
      repeat match goal with
             | |- context [?c cb info ?w0 ≫= _] => destruct (c cb info w0); simpl
             end;
      try done;
      by destruct (checkpointer_on_step cb info _).
  - intros Hzero. rewrite run_hooks_every_one.
    destruct (pbar_logger cb info w) as [w1|e]; [|by exists e].
    cbn [mbind Result_bind]. rewrite run_hooks_every_one.
    destruct (log_to_wandb cb info w1) as [w2|e]; [|by exists e].
    cbn [mbind Result_bind].
    destruct (eval_loader && _); cbn [app];
      rewrite run_hooks_zero_period by done; eauto.
Qed.
End DefaultHooksFiring.

Lemma add_default_hooks_firing_witness :
  let H := demo_collaborators (Ok None) in
  let self := demo_trainer (demo_config jmp.f32 None 2) demo_mask in
  hooks self = []
  ∧ run_hooks (hooks (add_default_hooks demo_callbacks demo_sizes self true))
      (demo_info 10) false []
    = Ok ["pbar"; "wandb"; "eval"; "xla"; "checkpoint"]
  ∧ run_hooks (hooks (add_default_hooks demo_callbacks demo_sizes self true))
      (demo_info 9) false []
    = Ok ["pbar"; "wandb"; "checkpoint"].
Proof.
  intros H self.
  assert (hooks self = []) as Hempty by reflexivity.
  split; [exact Hempty|]. split.
  - destruct (add_default_hooks_firing demo_callbacks demo_sizes self true (demo_info 10) []
                Hempty) as [Hfire _].
    rewrite Hfire by discriminate. reflexivity.
  - destruct (add_default_hooks_firing demo_callbacks demo_sizes self true (demo_info 9) []
                Hempty) as [Hfire _].
    rewrite Hfire by discriminate. reflexivity.
Defined.

(** ** Validation of the configuration *)

Lemma py_mod_Ok (a b r : Z) : py_mod a b = Ok r → b ≠ 0%Z ∧ r = (a mod b)%Z.
Proof.
  unfold py_mod. destruct (b =? 0)%Z eqn:Hb; [done|].
  apply Z.eqb_neq in Hb. by intros [= <-].
Qed.

Lemma py_mod_nonzero (a b : Z) : b ≠ 0%Z → py_mod a b = Ok (a mod b)%Z.
Proof. intros Hb. unfold py_mod. apply Z.eqb_neq in Hb. by rewrite Hb. Qed.

Lemma py_floordiv_nonzero (a b : Z) : b ≠ 0%Z → py_floordiv a b = Ok (a / b)%Z.
Proof. intros Hb. unfold py_floordiv. apply Z.eqb_neq in Hb. by rewrite Hb. Qed.

Lemma data_axis_size_divides (dev : Devices) (sz : TrainerConfigSizes) :
  model_axis_size sz ≠ 0%Z →
  (device_count dev mod model_axis_size sz = 0)%Z →
  data_axis_size dev sz = Ok (device_count dev / model_axis_size sz)%Z.
Proof.
  intros Hne Hdiv. unfold data_axis_size.
  rewrite py_mod_nonzero by done. simpl. rewrite Hdiv. simpl.
  by apply py_floordiv_nonzero.
Qed.

(** What a successful validation has checked and set, step by step. *)
Lemma _validate_and_set_defaults_inv (dev : Devices) (expanded_path : string)
    (cfg cfg' : TrainerConfig) (sz sz' : TrainerConfigSizes) :
  _validate_and_set_defaults dev expanded_path cfg sz = (cfg', sz', Ok ()) →
  ∃ pdp,
    model_axis_size sz ≠ 0%Z
    ∧ (device_count dev mod model_axis_size sz = 0)%Z
    ∧ (r1 ← py_mod (local_device_count dev) (model_axis_size sz);
       if negb (r1 =? 0)%Z
       then r2 ← py_mod (model_axis_size sz) (local_device_count dev);
            Ok (negb (r2 =? 0)%Z)
       else Ok false) = Ok false
    ∧ (if (per_device_parallelism sz =? -1)%Z
       then device_count dev ≠ 0%Z ∧ pdp = (train_batch_size sz / device_count dev)%Z
       else pdp = per_device_parallelism sz)
    ∧ (pdp * (device_count dev / model_axis_size sz))%Z ≠ 0%Z
    ∧ (train_batch_size sz mod (pdp * (device_count dev / model_axis_size sz)) = 0)%Z
    ∧ sz' = (let sz1 := if (per_device_parallelism sz =? -1)%Z
                        then with_per_device_parallelism sz pdp else sz in
             if (per_device_eval_parallelism sz =? -1)%Z
             then with_per_device_eval_parallelism sz1 pdp else sz1)
    ∧ cfg' = match load_checkpoint_path cfg with
             | None => with_load_checkpoint_path cfg (Some expanded_path)
             | Some _ => cfg
             end.
Proof.
  unfold _validate_and_set_defaults.
  destruct (py_mod (device_count dev) (model_axis_size sz)) as [r|e] eqn:Hr; [|done].
  apply py_mod_Ok in Hr as [Hmas ->].
  destruct (device_count dev mod model_axis_size sz =? 0)%Z eqn:Hdiv; simpl; [|done].
  apply Z.eqb_eq in Hdiv.
  match goal with |- context [match ?x with Ok _ => _ | Raise _ => _ end] =>
    destruct x as [[]|e] eqn:Hlocal; try done end.
  destruct (per_device_parallelism sz =? -1)%Z eqn:Hpdp.
  - destruct (py_floordiv (train_batch_size sz) (device_count dev)) as [v|e] eqn:Hv;
      simpl; [|done].
    assert (device_count dev ≠ 0%Z ∧ v = (train_batch_size sz / device_count dev)%Z)
      as [Hdc ->].
    { unfold py_floordiv in Hv. destruct (device_count dev =? 0)%Z eqn:Hz; [done|].
      apply Z.eqb_neq in Hz. by injection Hv as <-. }
    rewrite (data_axis_size_divides dev (with_per_device_parallelism sz _)) by done.
    simpl.
    destruct (py_mod (train_batch_size sz) _) as [r3|e] eqn:Hr3; [|done].
    apply py_mod_Ok in Hr3 as [Hprod ->].
    destruct (_ mod _ =? 0)%Z eqn:Hrem; simpl; [|done].
    apply Z.eqb_eq in Hrem.
    intros [= <- <-]. eexists. split_and!; done.
  - simpl. rewrite (data_axis_size_divides dev sz) by done. simpl.
    destruct (py_mod (train_batch_size sz) _) as [r3|e] eqn:Hr3; [|done].
    apply py_mod_Ok in Hr3 as [Hprod ->].
    destruct (_ mod _ =? 0)%Z eqn:Hrem; simpl; [|done].
    apply Z.eqb_eq in Hrem.
    intros [= <- <-]. exists (per_device_parallelism sz). split_and!; done.
Qed.

(** X9. After a successful validation the sizes fit together: the device
    count is the model axis size times the data axis size, which
    [data_axis_size] now returns without failing its assertion; the product of
    [per_device_parallelism] and the data axis size is non-zero and divides
    the training batch size, which the validation does not change; and
    [eval_batch_size] is [per_device_eval_parallelism] times the data axis
    size. *)
Theorem _validate_and_set_defaults_sizes (dev : Devices) (expanded_path : string)
    (cfg cfg' : TrainerConfig) (sz sz' : TrainerConfigSizes) :
  _validate_and_set_defaults dev expanded_path cfg sz = (cfg', sz', Ok ()) →
  ∃ das,
    data_axis_size dev sz' = Ok das
    ∧ device_count dev = (model_axis_size sz' * das)%Z
    ∧ (per_device_parallelism sz' * das)%Z ≠ 0%Z
    ∧ (per_device_parallelism sz' * das | train_batch_size sz')%Z
    ∧ eval_batch_size dev sz' = Ok (per_device_eval_parallelism sz' * das)%Z
    ∧ train_batch_size sz' = train_batch_size sz
    ∧ model_axis_size sz' = model_axis_size sz.
Proof.
  intros Hvalid.
  apply _validate_and_set_defaults_inv in Hvalid
    as (pdp & Hmas & Hdiv & _ & Hpdp & Hprod & Hrem & Hsz & _).
  exists (device_count dev / model_axis_size sz)%Z.
  assert (model_axis_size sz' = model_axis_size sz
          ∧ train_batch_size sz' = train_batch_size sz
          ∧ per_device_parallelism sz' = pdp) as (Hm & Ht & Hp).
  { subst sz'.
    destruct (per_device_parallelism sz =? -1)%Z eqn:Hd;
      destruct (per_device_eval_parallelism sz =? -1)%Z; simpl; split_and!; done. }
  assert (data_axis_size dev sz' = Ok (device_count dev / model_axis_size sz)%Z) as Hdas.
  { rewrite <- Hm. apply data_axis_size_divides; by rewrite Hm. }
  unfold eval_batch_size. rewrite Hdas, Hm, Ht, Hp. simpl.
  split_and!; try done.
  - by apply Z.div_exact in Hdiv.
  - by apply Z.mod_divide in Hrem.
Qed.

Lemma _validate_and_set_defaults_sizes_witness :
  ∃ cfg' sz',
    _validate_and_set_defaults demo_devices "runs/unnamed"
      (with_load_checkpoint_path (demo_config jmp.f32 None 2) None) demo_sizes
    = (cfg', sz', Ok ())
    ∧ per_device_parallelism sz' = 64%Z
    ∧ ∃ das,
        data_axis_size demo_devices sz' = Ok das
        ∧ device_count demo_devices = (model_axis_size sz' * das)%Z
        ∧ (per_device_parallelism sz' * das)%Z ≠ 0%Z
        ∧ (per_device_parallelism sz' * das | train_batch_size sz')%Z
        ∧ eval_batch_size demo_devices sz' = Ok (per_device_eval_parallelism sz' * das)%Z
        ∧ train_batch_size sz' = train_batch_size demo_sizes
        ∧ model_axis_size sz' = model_axis_size demo_sizes.
Proof.
  eexists _, _. split; [reflexivity|]. split; [reflexivity|].
  eapply (_validate_and_set_defaults_sizes demo_devices "runs/unnamed"
            (with_load_checkpoint_path (demo_config jmp.f32 None 2) None)).
  reflexivity.
Defined.

(** X10. After a successful validation the checkpoint path is set: to the
    configured one, or else to the checkpointer's path for the run; nothing
    else of the mappings, the step count or the loading flag has changed.
    Sizes given explicitly are kept, a [per_device_eval_parallelism] of -1 has
    become the [per_device_parallelism].  Loading a checkpoint afterwards
    cannot fail the assertion on the path: under the default flag it returns
    what the checkpointer answers at that path. *)
Theorem _validate_and_set_defaults_fills `{Collaborators} (dev : Devices)
    (expanded_path : string) (cfg cfg' : TrainerConfig) (sz sz' : TrainerConfigSizes) :
  _validate_and_set_defaults dev expanded_path cfg sz = (cfg', sz', Ok ()) →
  load_checkpoint_path cfg' = Some (default expanded_path (load_checkpoint_path cfg))
  ∧ compute_axis_mapping cfg' = compute_axis_mapping cfg
  ∧ parameter_axis_mapping cfg' = parameter_axis_mapping cfg
  ∧ num_train_steps cfg' = num_train_steps cfg
  ∧ load_checkpoint cfg' = load_checkpoint cfg
  ∧ (per_device_parallelism sz ≠ (-1)%Z →
     per_device_parallelism sz' = per_device_parallelism sz)
  ∧ (per_device_eval_parallelism sz ≠ (-1)%Z →
     per_device_eval_parallelism sz' = per_device_eval_parallelism sz)
  ∧ (per_device_eval_parallelism sz = (-1)%Z →
     per_device_eval_parallelism sz' = per_device_parallelism sz')
  ∧ (load_checkpoint cfg = None →
     ∀ m ts am,
       maybe_load_checkpoint cfg' m ts am
       = checkpointer_load_checkpoint m ts
           (default expanded_path (load_checkpoint_path cfg)) am).
Proof.
  intros Hvalid.
  apply _validate_and_set_defaults_inv in Hvalid
    as (pdp & _ & _ & _ & Hpdp & _ & _ & -> & ->).
  assert (load_checkpoint_path
            match load_checkpoint_path cfg with
            | None => with_load_checkpoint_path cfg (Some expanded_path)
            | Some _ => cfg
            end = Some (default expanded_path (load_checkpoint_path cfg))) as Hpath.
  { by destruct (load_checkpoint_path cfg) eqn:Hp. }
  split_and!.
  - done.
  - by destruct (load_checkpoint_path cfg).
  - by destruct (load_checkpoint_path cfg).
  - by destruct (load_checkpoint_path cfg).
  - by destruct (load_checkpoint_path cfg).
  - intros Hne. apply Z.eqb_neq in Hne. rewrite Hne.
    by destruct (per_device_eval_parallelism sz =? -1)%Z.
  - intros Hne. apply Z.eqb_neq in Hne. rewrite Hne.
    by destruct (per_device_parallelism sz =? -1)%Z.
  - intros Heq. apply Z.eqb_eq in Heq. rewrite Heq.
    destruct (per_device_parallelism sz =? -1)%Z; simpl; [done|].
    by rewrite Hpdp.
  - intros Hflag m ts am. unfold maybe_load_checkpoint. rewrite Hpath.
    assert (load_checkpoint
              match load_checkpoint_path cfg with
              | None => with_load_checkpoint_path cfg (Some expanded_path)
              | Some _ => cfg
              end = None) as -> by (by destruct (load_checkpoint_path cfg)).
    by destruct (checkpointer_load_checkpoint m ts _ am) as [[]|].
Qed.

Lemma _validate_and_set_defaults_fills_witness :
  let H := demo_collaborators (Ok (Some demo_checkpoint)) in
  ∃ cfg' sz',
    _validate_and_set_defaults demo_devices "runs/unnamed"
      (with_load_checkpoint_path (demo_config jmp.f32 None 2) None) demo_sizes
    = (cfg', sz', Ok ())
    ∧ load_checkpoint_path cfg' = Some "runs/unnamed"
    ∧ maybe_load_checkpoint cfg' demo_model (PNone, 7%Z) ∅ = Ok (Some demo_checkpoint).
Proof.
  intros H. eexists _, _. split; [reflexivity|].
  destruct (_validate_and_set_defaults_fills demo_devices "runs/unnamed"
              (with_load_checkpoint_path (demo_config jmp.f32 None 2) None) _
              demo_sizes _ eq_refl) as (Hpath & _ & _ & _ & _ & _ & _ & _ & Hload).
  split; [exact Hpath|]. rewrite Hload by reflexivity. reflexivity.
Defined.

(** X11. Validating a validated configuration changes nothing and succeeds
    again, whatever path the checkpointer would now propose. *)
Theorem _validate_and_set_defaults_idempotent (dev : Devices) (path path' : string)
    (cfg cfg' : TrainerConfig) (sz sz' : TrainerConfigSizes) :
  _validate_and_set_defaults dev path cfg sz = (cfg', sz', Ok ()) →
  _validate_and_set_defaults dev path' cfg' sz' = (cfg', sz', Ok ()).
Proof.
  intros Hvalid.
  apply _validate_and_set_defaults_inv in Hvalid
    as (pdp & Hmas & Hdiv & Hlocal & Hpdp & Hprod & Hrem & Hsz & Hcfg).
  assert (model_axis_size sz' = model_axis_size sz
          ∧ train_batch_size sz' = train_batch_size sz
          ∧ per_device_parallelism sz' = pdp
          ∧ ((per_device_eval_parallelism sz' =? -1)%Z = true →
             per_device_eval_parallelism sz' = pdp)) as (Hm & Ht & Hp & He).
  { subst sz'.
    destruct (per_device_parallelism sz =? -1)%Z eqn:Hd;
      destruct (per_device_eval_parallelism sz =? -1)%Z eqn:Hev; simpl;
      split_and!; try done; try congruence.
    all: intros Hev'; apply Z.eqb_eq in Hev'; congruence. }
  assert (∃ p, load_checkpoint_path cfg' = Some p) as [p Hp'].
  { subst cfg'. destruct (load_checkpoint_path cfg) eqn:Hpath; simpl; eauto. }
  assert (∀ v, per_device_parallelism sz' = v → with_per_device_parallelism sz' v = sz')
    as Hsame by (intros v <-; by destruct sz').
  assert (∀ v, per_device_eval_parallelism sz' = v →
               with_per_device_eval_parallelism sz' v = sz')
    as Hsame' by (intros v <-; by destruct sz').
  unfold _validate_and_set_defaults.
  rewrite Hm, py_mod_nonzero, Hdiv by done. simpl.
  rewrite Hlocal.
  assert ((if (per_device_parallelism sz' =? -1)%Z
           then v ← py_floordiv (train_batch_size sz') (device_count dev);
                Ok (with_per_device_parallelism sz' v)
           else Ok sz') = Ok sz') as ->.
  { destruct (per_device_parallelism sz' =? -1)%Z eqn:Hd; [|done].
    apply Z.eqb_eq in Hd.
    destruct (per_device_parallelism sz =? -1)%Z eqn:Hd0.
    - destruct Hpdp as [Hdc Hpdp]. rewrite Ht, py_floordiv_nonzero by done. simpl.
      rewrite Hsame; [done|congruence].
    - apply Z.eqb_neq in Hd0. congruence. }
  rewrite (data_axis_size_divides dev sz') by (by rewrite Hm). simpl.
  rewrite Hm, Ht, Hp, py_mod_nonzero, Hrem by done. simpl.
  rewrite Hp'.
  destruct (per_device_eval_parallelism sz' =? -1)%Z eqn:Hev; [|done].
  rewrite Hsame'; [done|]. by apply He.
Qed.

Lemma _validate_and_set_defaults_idempotent_witness :
  ∃ cfg' sz',
    _validate_and_set_defaults demo_devices "runs/unnamed"
      (with_load_checkpoint_path (demo_config jmp.f32 None 2) None) demo_sizes
    = (cfg', sz', Ok ())
    ∧ _validate_and_set_defaults demo_devices "runs/other" cfg' sz' = (cfg', sz', Ok ()).
Proof.
  eexists _, _. split; [reflexivity|].
  eapply (_validate_and_set_defaults_idempotent demo_devices "runs/unnamed" "runs/other"
            (with_load_checkpoint_path (demo_config jmp.f32 None 2) None) _ demo_sizes).
  reflexivity.
Defined.

(** X12. With one model shard and the default [per_device_parallelism] of -1,
    a positive batch size on a positive number of devices passes the
    validation exactly when the device count divides the batch size; a batch
    smaller than the device count fails with a division by zero. *)
Theorem _validate_and_set_defaults_default_parallelism (dev : Devices) (path : string)
    (cfg : TrainerConfig) (sz : TrainerConfigSizes) :
  model_axis_size sz = 1%Z →
  per_device_parallelism sz = (-1)%Z →
  (0 < device_count dev)%Z →
  (0 < train_batch_size sz)%Z →
  ((_validate_and_set_defaults dev path cfg sz).2 = Ok ()
   ↔ (device_count dev | train_batch_size sz)%Z)
  ∧ ((train_batch_size sz < device_count dev)%Z →
     (_validate_and_set_defaults dev path cfg sz).2 = Raise ZeroDivisionError).
Proof.
  intros Hmas Hpdp Hdc Htbs.
  unfold _validate_and_set_defaults.
  rewrite Hmas, Hpdp. rewrite py_mod_nonzero by done.
  rewrite Z.mod_1_r. simpl negb. cbv iota.
  rewrite (py_mod_nonzero (local_device_count dev) 1) by done.
  rewrite Z.mod_1_r. simpl.
  rewrite py_floordiv_nonzero by lia. simpl.
  rewrite (data_axis_size_divides dev (with_per_device_parallelism sz _));
    [|simpl; by rewrite Hmas|simpl; rewrite Hmas; apply Z.mod_1_r].
  simpl. rewrite Hmas, Z.div_1_r.
  set (q := (train_batch_size sz / device_count dev)%Z).
  pose proof (Z.div_mod (train_batch_size sz) (device_count dev) ltac:(lia)) as Hdm.
  pose proof (Z.mod_pos_bound (train_batch_size sz) (device_count dev) Hdc) as Hbound.
  fold q in Hdm.
  assert (0 ≤ q)%Z as Hq by (apply Z.div_pos; lia).
  destruct (decide (q = 0%Z)) as [Hq0|Hq0].
  - rewrite Hq0. simpl. split.
    + split; [done|]. intros [k Hk]. exfalso.
      rewrite Hq0 in Hdm.
      assert (k = 0 ∨ 0 < k ∨ k < 0)%Z as [->|[Hk'|Hk']] by lia; nia.
    + done.
  - assert (q * device_count dev ≠ 0)%Z as Hprod by nia.
    rewrite py_mod_nonzero by done.
    assert ((train_batch_size sz mod (q * device_count dev))%Z
            = (train_batch_size sz mod device_count dev)%Z) as ->.
    { symmetry. apply (Z.mod_unique_pos _ _ 1); nia. }
    split.
    + destruct (train_batch_size sz mod device_count dev =? 0)%Z eqn:Hrem; simpl.
      * apply Z.eqb_eq in Hrem.
        destruct (per_device_eval_parallelism sz =? -1)%Z;
          destruct (load_checkpoint_path cfg); simpl; split; try done;
          intros _; apply Z.mod_divide; lia.
      * apply Z.eqb_neq in Hrem. split; [done|].
        intros Hdiv. apply Z.mod_divide in Hdiv; [done|lia].
    + intros Hlt. exfalso. apply Hq0. unfold q. apply Z.div_small. lia.
Qed.

Lemma _validate_and_set_defaults_default_parallelism_witness :
  model_axis_size demo_sizes = 1%Z
  ∧ (_validate_and_set_defaults demo_devices "runs/unnamed"
       (demo_config jmp.f32 None 2) demo_sizes).2 = Ok ()
  ∧ (device_count demo_devices | train_batch_size demo_sizes)%Z.
Proof.
  split; [reflexivity|].
  destruct (_validate_and_set_defaults_default_parallelism demo_devices "runs/unnamed"
              (demo_config jmp.f32 None 2) demo_sizes eq_refl eq_refl
              ltac:(simpl; lia) ltac:(simpl; lia)) as [Hiff _].
  split; [reflexivity|]. apply Hiff. reflexivity.
Defined.

(** ** Run names *)

Lemma str_truthy_nonempty (s : string) : str_truthy s = true ↔ s ≠ "".
Proof.
  unfold str_truthy. destruct (String.eqb s "") eqn:Heq; simpl.
  - apply String.eqb_eq in Heq. split; [done|congruence].
  - apply String.eqb_neq in Heq. done.
Qed.

(** X13. The run name and the run id are never empty: without a wandb run
    both are ["unnamed"]; with a run the name is the display name when that is
    a non-empty string, else the id, and an empty id gives ["unnamed"]
    too. *)
Theorem run_name_never_empty (run : option wandb.Run) :
  run_name run ≠ ""
  ∧ run_id run ≠ ""
  ∧ (run = None → run_name run = "unnamed" ∧ run_id run = "unnamed")
  ∧ (∀ r n, run = Some r → wandb.name r = Some n → n ≠ "" → run_name run = n)
  ∧ (∀ r, run = Some r → wandb.id r ≠ "" →
          run_id run = wandb.id r
          ∧ (wandb.name r = None ∨ wandb.name r = Some "" → run_name run = wandb.id r))
  ∧ (∀ r, run = Some r → wandb.id r = "" → run_id run = "unnamed").
Proof.
  assert (∀ s, (if str_truthy s then s else "unnamed") ≠ "") as Hor.
  { intros s. destruct (str_truthy s) eqn:Hs; [by apply str_truthy_nonempty|done]. }
  split_and!.
  - destruct run as [r|]; simpl; [apply Hor|done].
  - destruct run as [r|]; simpl; [apply Hor|done].
  - by intros ->.
  - intros r n -> Hname Hn. simpl. rewrite Hname.
    apply str_truthy_nonempty in Hn. by rewrite !Hn.
  - intros r -> Hid. apply str_truthy_nonempty in Hid. simpl. rewrite Hid.
    split; [done|]. intros [->| ->]; simpl; by rewrite Hid.
  - intros r -> Hid. simpl. by rewrite Hid.
Qed.

(** ** More on the learning-rate schedule *)

Section ScheduleShape.
Local Open Scope R_scope.

(** The schedule that [lr_scheduler] returns, step by step. *)
Lemma lr_scheduler_inv (self : OptimizerConfig) (n : Z) (sched : optax.Schedule) :
  lr_scheduler self n = Ok sched →
  ∃ decay : optax.Schedule,
    ((lr_schedule self = "constant"
      ∧ decay = optax.constant_schedule (learning_rate self))
     ∨ (lr_schedule self = "cosine"
        ∧ optax.cosine_decay_schedule (learning_rate self) (n - warmup_steps_of self n)
            (min_lr_ratio self) = Ok decay)
     ∨ (lr_schedule self = "linear"
        ∧ decay = optax.linear_schedule (learning_rate self)
                    (learning_rate self * min_lr_ratio self)
                    (n - warmup_steps_of self n - warmup_steps_of self n)))
    ∧ ∀ t, sched t
           = if (warmup_steps_of self n =? 0)%Z then decay t
             else if (t <? warmup_steps_of self n)%Z
                  then optax.linear_schedule 0 (learning_rate self)
                         (warmup_steps_of self n) t
                  else decay (t - warmup_steps_of self n)%Z.
Proof.
  unfold lr_scheduler.
  set (w := warmup_steps_of self n).
  assert (∀ decay : optax.Schedule,
             (if (w =? 0)%Z then Ok decay
              else Ok (optax.join_schedules
                         [optax.linear_schedule 0 (learning_rate self) w; decay] [w]))
             = Ok sched →
             ∀ t, sched t
                  = if (w =? 0)%Z then decay t
                    else if (t <? w)%Z
                         then optax.linear_schedule 0 (learning_rate self) w t
                         else decay (t - w)%Z) as Hjoin.
  { intros decay Hd t. destruct (w =? 0)%Z; injection Hd as <-; [done|].
    apply join_warmup_schedule. }
  destruct (String.eqb (lr_schedule self) "constant") eqn:Hconst.
  { apply String.eqb_eq in Hconst. simpl. intros Hd.
    eexists. split; [left; done|]. by apply Hjoin. }
  destruct (String.eqb (lr_schedule self) "cosine") eqn:Hcos.
  { apply String.eqb_eq in Hcos.
    destruct (optax.cosine_decay_schedule _ _ _) as [decay|e] eqn:Hdecay; simpl; [|done].
    intros Hd. exists decay. split; [right; left; done|]. by apply Hjoin. }
  destruct (String.eqb (lr_schedule self) "linear") eqn:Hlin; simpl; [|done].
  apply String.eqb_eq in Hlin. intros Hd.
  eexists. split; [right; right; done|]. by apply Hjoin.
Qed.


(** X15. Whatever the schedule kind, the learning rate right after the
    warmup is the full [learning_rate]: at step [warmup_steps] when there is a
    warmup, and at step 0 when the truncated warmup has no step. *)
Theorem lr_scheduler_peak (self : OptimizerConfig) (n : Z) (sched : optax.Schedule) :
  (0 ≤ warmup_steps_of self n)%Z →
  lr_scheduler self n = Ok sched →
  sched (warmup_steps_of self n) = learning_rate self.
Proof.
  intros Hw Hsched.
  apply lr_scheduler_inv in Hsched as (decay & Hdecay & Hs).
  set (w := warmup_steps_of self n) in *.
  assert (decay 0%Z = learning_rate self) as Hzero.
  { destruct Hdecay as [[_ ->]|[[_ Hcos]|[_ ->]]].
    - done.
    - apply cosine_decay_schedule_inv in Hcos as [Hpos ->].
      rewrite Z.min_l by lia.
      assert (IZR (n - w) ≠ 0) by (apply not_0_IZR; lia).
      replace (PI * 0 / IZR (n - w)) with 0 by (field; done).
      rewrite cos_0. lra.
    - unfold optax.linear_schedule.
      destruct (_ <=? 0)%Z eqn:Hle; [done|]. apply Z.leb_gt in Hle.
      rewrite Z.max_l, Z.min_l by lia.
      assert (IZR (n - w - w) ≠ 0) by (apply not_0_IZR; lia).
      field. done. }
  rewrite Hs. destruct (w =? 0)%Z eqn:Hw0.
  - apply Z.eqb_eq in Hw0. by rewrite Hw0.
  - rewrite Z.ltb_irrefl, Z.sub_diag. done.
Qed.

Lemma lr_scheduler_peak_witness :
  ∃ sched,
    (0 ≤ warmup_steps_of default_optimizer_config 99)%Z
    ∧ lr_scheduler default_optimizer_config 99 = Ok sched
    ∧ sched (warmup_steps_of default_optimizer_config 99)
      = learning_rate default_optimizer_config.
Proof.
  eexists.
  assert (0 ≤ warmup_steps_of default_optimizer_config 99)%Z as Hw by (vm_compute; done).
  split; [exact Hw|]. split; [reflexivity|].
  exact (lr_scheduler_peak default_optimizer_config 99 _ Hw eq_refl).
Defined.
End ScheduleShape.

Section ScheduleBounds.
Local Open Scope R_scope.

Lemma ratio_bounds (count steps : Z) :
  (0 ≤ count ≤ steps)%Z → (0 < steps)%Z →
  0 <= IZR count / IZR steps <= 1.
Proof.
  intros [Hc1 Hc2] Hs.
  apply IZR_le in Hc1, Hc2. apply IZR_lt in Hs.
  split.
  - apply Rmult_le_pos; [done|]. left. by apply Rinv_0_lt_compat.
  - apply (Rmult_le_reg_r (IZR steps)); [done|].
    unfold Rdiv. rewrite Rmult_assoc, Rinv_l by lra. lra.
Qed.

Lemma linear_schedule_bounds (lo hi : R) (a b : R) (steps t : Z) :
  lo <= a <= hi → lo <= b <= hi →
  lo <= optax.linear_schedule a b steps t <= hi.
Proof.
  intros Ha Hb. unfold optax.linear_schedule.
  destruct (steps <=? 0)%Z eqn:Hle; [done|]. apply Z.leb_gt in Hle.
  pose proof (ratio_bounds (Z.min (Z.max t 0) steps) steps ltac:(lia) Hle) as Hr.
  set (r := IZR (Z.min (Z.max t 0) steps) / IZR steps) in *.
  nra.
Qed.

(** X16. With a non-negative learning rate and a minimum ratio between 0
    and 1, the learning rate of every step lies between 0 and
    [learning_rate], and from the end of the warmup on it never falls below
    [learning_rate * min_lr_ratio], for each of the three schedule kinds. *)
Theorem lr_scheduler_bounds (self : OptimizerConfig) (n : Z) (sched : optax.Schedule)
    (t : Z) :
  0 <= learning_rate self →
  0 <= min_lr_ratio self <= 1 →
  lr_scheduler self n = Ok sched →
  0 <= sched t <= learning_rate self
  ∧ ((warmup_steps_of self n ≤ t)%Z →
     learning_rate self * min_lr_ratio self <= sched t).
Proof.
  intros Hlr Hratio Hsched.
  apply lr_scheduler_inv in Hsched as (decay & Hdecay & Hs).
  set (w := warmup_steps_of self n) in *.
  assert (learning_rate self * min_lr_ratio self <= learning_rate self) as Hmin by nra.
  assert (0 <= learning_rate self * min_lr_ratio self) as Hmin0 by nra.
  assert (∀ c, learning_rate self * min_lr_ratio self <= decay c <= learning_rate self)
    as Hd.
  { intros c. destruct Hdecay as [[_ ->]|[[_ Hcos]|[_ ->]]].
    - unfold optax.constant_schedule. lra.
    - apply cosine_decay_schedule_inv in Hcos as [_ ->].
      pose proof (COS_bound (PI * IZR (Z.min c (n - w)) / IZR (n - w))) as [Hc1 Hc2].
      set (x := cos (PI * IZR (Z.min c (n - w)) / IZR (n - w))) in *.
      split; nra.
    - apply linear_schedule_bounds; lra. }
  rewrite Hs. destruct (w =? 0)%Z.
  - specialize (Hd t). split; [lra|]. intros _. lra.
  - destruct (t <? w)%Z eqn:Hlt.
    + apply Z.ltb_lt in Hlt. split; [|lia].
      apply linear_schedule_bounds; lra.
    + specialize (Hd (t - w)%Z). split; [lra|]. intros _. lra.
Qed.

Lemma lr_scheduler_bounds_witness :
  ∃ sched,
    0 <= learning_rate boundary_config
    ∧ 0 <= min_lr_ratio boundary_config <= 1
    ∧ lr_scheduler boundary_config 1000 = Ok sched
    ∧ 0 <= sched 500%Z <= learning_rate boundary_config.
Proof.
  eexists.
  assert (0 <= learning_rate boundary_config) as Hlr by (simpl; lra).
  assert (0 <= min_lr_ratio boundary_config <= 1) as Hratio by (simpl; lra).
  split; [exact Hlr|]. split; [exact Hratio|]. split; [reflexivity|].
  exact (proj1 (lr_scheduler_bounds boundary_config 1000 _ 500 Hlr Hratio eq_refl)).
Defined.

(** X17. The linear schedule after a warmup of [w > 0] steps is handed
    [num_train_steps - 2 w] transition steps: when that is positive, the rate
    has come down to [learning_rate * min_lr_ratio] at step
    [num_train_steps - w] and stays there. *)
Theorem lr_scheduler_linear_end (self : OptimizerConfig) (n : Z) (sched : optax.Schedule)
    (t : Z) :
  lr_schedule self = "linear" →
  (0 < warmup_steps_of self n)%Z →
  (2 * warmup_steps_of self n < n)%Z →
  lr_scheduler self n = Ok sched →
  (n - warmup_steps_of self n ≤ t)%Z →
  sched t = learning_rate self * min_lr_ratio self.
Proof.
  intros Hkind Hw Hn Hsched Ht.
  by apply (lr_scheduler_linear_decay self n sched Hkind Hw Hn Hsched).
Qed.

Lemma lr_scheduler_linear_end_witness :
  ∃ sched,
    lr_schedule linear_config = "linear"
    ∧ (0 < warmup_steps_of linear_config 10)%Z
    ∧ (2 * warmup_steps_of linear_config 10 < 10)%Z
    ∧ lr_scheduler linear_config 10 = Ok sched
    ∧ sched 8%Z = learning_rate linear_config * min_lr_ratio linear_config.
Proof.
  eexists.
  assert (0 < warmup_steps_of linear_config 10)%Z as Hw by (vm_compute; done).
  assert (2 * warmup_steps_of linear_config 10 < 10)%Z as Hn by (vm_compute; done).
  split; [reflexivity|]. split; [exact Hw|]. split; [exact Hn|]. split; [reflexivity|].
  apply (lr_scheduler_linear_end linear_config 10 _ 8 eq_refl Hw Hn eq_refl).
  vm_compute. discriminate.
Defined.
End ScheduleBounds.

(** ** Leaves of the two halves *)

Lemma map2_opt_lookup_all {A B C} (f : A → B → option C) (l1 : list A) :
  ∀ (l2 : list B) (l3 : list C) (i : nat),
    map2_opt f l1 l2 = Some l3 →
    (l1 !! i = None ∧ l2 !! i = None ∧ l3 !! i = None)
    ∨ (∃ a b c, l1 !! i = Some a ∧ l2 !! i = Some b ∧ l3 !! i = Some c
                ∧ f a b = Some c).
Proof.
  induction l1 as [|a1 l1 IH]; intros l2 l3 i Hmap.
  - destruct l2; simpl in Hmap; [|done]. injection Hmap as <-. by left.
  - destruct l2 as [|b1 l2]; simpl in Hmap; [done|].
    destruct (f a1 b1) as [c1|] eqn:Hf; [|done].
    destruct (map2_opt f l1 l2) as [cs|] eqn:Hcs; [|done].
    injection Hmap as <-.
    destruct i as [|i]; simpl.
    + right. by exists a1, b1, c1.
    + by apply IH.
Qed.

Section HalvesLeaves.
Context {A : Type}.
Implicit Types (m l r : PyTree A) (g : A → bool) (path : list nat).

Lemma leaf_at_selected g m : ∀ path x,
  leaf_at (selected g m) path = Some x ↔ leaf_at m path = Some x ∧ g x = true.
Proof.
  unfold selected.
  induction m as [y| |kind kids IH] using PyTree_nested_ind; intros path x.
  - simpl. destruct (g y) eqn:Hg; destruct path; simpl; split;
      first [ done
            | by intros [? _]
            | intros [= <-]; done
            | intros [[= <-] ?]; congruence ].
  - destruct path; simpl; split; try done; by intros [? _].
  - destruct path as [|i path]; simpl; [split; [done|by intros [? _]]|].
    rewrite list_lookup_fmap.
    destruct (kids !! i) as [kid|] eqn:Hkid; simpl; [|split; [done|by intros [? _]]].
    rewrite Forall_forall in IH. apply IH. by eapply list_elem_of_lookup_2.
Qed.

Lemma leaf_at_rejected g m : ∀ path x,
  leaf_at (rejected g m) path = Some x ↔ leaf_at m path = Some x ∧ g x = false.
Proof.
  unfold rejected.
  induction m as [y| |kind kids IH] using PyTree_nested_ind; intros path x.
  - simpl. destruct (g y) eqn:Hg; destruct path; simpl; split;
      first [ done
            | by intros [? _]
            | intros [= <-]; done
            | intros [[= <-] ?]; congruence ].
  - destruct path; simpl; split; try done; by intros [? _].
  - destruct path as [|i path]; simpl; [split; [done|by intros [? _]]|].
    rewrite list_lookup_fmap.
    destruct (kids !! i) as [kid|] eqn:Hkid; simpl; [|split; [done|by intros [? _]]].
    rewrite Forall_forall in IH. apply IH. by eapply list_elem_of_lookup_2.
Qed.

(** Where the leaves of a model go under a filter specification: each leaf
    goes to the left half when the specification leaf above it selects it and
    to the right half otherwise, and the halves hold nothing else. *)
Lemma filter_tree_leaves (spec : PyTree (eqx.FilterSpec A)) :
  ∀ m ft l r,
    jtu.tree_map2 eqx._filter_tree spec m = Some ft →
    jtu.tree_map2 keep_left ft m = Some l →
    jtu.tree_map2 keep_right ft m = Some r →
    ∀ path x,
      (leaf_at l path = Some x ↔
       leaf_at m path = Some x
       ∧ ∃ above mask, above `prefix_of` path ∧ leaf_at spec above = Some mask
                       ∧ spec_pred mask x = true)
      ∧ (leaf_at r path = Some x ↔
         leaf_at m path = Some x
         ∧ ∃ above mask, above `prefix_of` path ∧ leaf_at spec above = Some mask
                         ∧ spec_pred mask x = false).
Proof.
  induction spec as [mask| |kind ps IH] using PyTree_nested_ind;
    intros m ft l r Hft Hl Hr path x.
  - assert (ft = jtu.tree_map (λ x, Leaf (spec_pred mask x)) m) as ->.
    { simpl in Hft. destruct mask; simpl in Hft; by injection Hft as <-. }
    rewrite left_of_leaf_mask in Hl. rewrite right_of_leaf_mask in Hr.
    injection Hl as <-. injection Hr as <-.
    rewrite leaf_at_selected, leaf_at_rejected.
    split; (split; [intros [? ?]; split; [done|]; exists [], mask;
                    split_and!; [apply prefix_nil|done|done]|]).
    + intros (? & above & mask' & _ & Hmask & ?).
      destruct above; simpl in Hmask; [|done]. by injection Hmask as <-.
    + intros (? & above & mask' & _ & Hmask & ?).
      destruct above; simpl in Hmask; [|done]. by injection Hmask as <-.
  - destruct m; simpl in Hft; try done. injection Hft as <-.
    simpl in Hl, Hr. injection Hl as <-. injection Hr as <-.
    destruct path; simpl; split; split; try done; by intros [? _].
  - destruct m as [| |kind' ts]; simpl in Hft; try done.
    destruct (String.eqb kind kind') eqn:Hk; [|done].
    apply String.eqb_eq in Hk as <-.
    destruct (map2_opt (jtu.tree_map2 eqx._filter_tree) ps ts) as [fts|] eqn:Hfts;
      simpl in Hft; [|done].
    injection Hft as <-. simpl in Hl, Hr. rewrite String.eqb_refl in Hl, Hr.
    destruct (map2_opt (jtu.tree_map2 keep_left) fts ts) as [ls|] eqn:Hls;
      simpl in Hl; [|done].
    destruct (map2_opt (jtu.tree_map2 keep_right) fts ts) as [rs|] eqn:Hrs;
      simpl in Hr; [|done].
    injection Hl as <-. injection Hr as <-.
    destruct path as [|i path].
    { simpl. split; split; try done; by intros [? _]. }
    simpl.
    destruct (map2_opt_lookup_all _ _ _ _ i Hfts)
      as [(Hp & Ht & Hf)|(p & t & f & Hp & Ht & Hf & Hpt)].
    { destruct (map2_opt_lookup_all _ _ _ _ i Hls) as [(_ & _ & Hl0)|(? & ? & ? & ? & ? & _)];
        [|congruence].
      destruct (map2_opt_lookup_all _ _ _ _ i Hrs) as [(_ & _ & Hr0)|(? & ? & ? & ? & ? & _)];
        [|congruence].
      rewrite Hl0, Hr0, Ht. simpl. split; split; try done; by intros [? _]. }
    destruct (map2_opt_lookup_all _ _ _ _ i Hls)
      as [(? & _)|(f1 & t1 & li & Hf1 & Ht1 & Hli & Hleft)]; [congruence|].
    destruct (map2_opt_lookup_all _ _ _ _ i Hrs)
      as [(? & _)|(f2 & t2 & ri & Hf2 & Ht2 & Hri & Hright)]; [congruence|].
    assert (f1 = f) as -> by congruence. assert (f2 = f) as -> by congruence.
    assert (t1 = t) as -> by congruence. assert (t2 = t) as -> by congruence.
    rewrite Hli, Hri, Ht. simpl.
    rewrite Forall_forall in IH.
    destruct (IH p (list_elem_of_lookup_2 _ _ _ Hp) t f li ri Hpt Hleft Hright path x)
      as [Hleft_iff Hright_iff].
    assert (∀ b,
               (∃ above mask, above `prefix_of` path ∧ leaf_at p above = Some mask
                              ∧ spec_pred mask x = b)
               ↔ (∃ above mask, above `prefix_of` i :: path
                                ∧ leaf_at (Node kind ps) above = Some mask
                                ∧ spec_pred mask x = b)) as Habove.
    { intros b. split.
      - intros (above & mask & Hpre & Hmask & Hb).
        exists (i :: above), mask. split_and!; [by apply prefix_cons| |done].
        simpl. by rewrite Hp.
      - intros (above & mask & Hpre & Hmask & Hb).
        destruct above as [|j above]; simpl in Hmask; [done|].
        apply prefix_cons_inv_1 in Hpre as Hj. subst j.
        apply prefix_cons_inv_2 in Hpre.
        rewrite Hp in Hmask. simpl in Hmask. by exists above, mask. }
    rewrite Hleft_iff, Hright_iff, !Habove. done.
Qed.
End HalvesLeaves.

Section CombineLeaves.
Context {A : Type}.

(** A leaf of a combined tree is the left tree's leaf there, or the right
    tree's leaf in a hole of the left tree. *)
Lemma combine_leaf_origin (l : PyTree A) :
  ∀ r m path x,
    eqx.combine l r = Some m →
    leaf_at m path = Some x →
    leaf_at l path = Some x
    ∨ (none_on_path l path = true ∧ leaf_at r path = Some x).
Proof.
  unfold eqx.combine.
  induction l as [y| |kind ls IH] using PyTree_nested_ind; intros r m path x Hc Hleaf.
  - simpl in Hc. injection Hc as <-. by left.
  - right. split; [by destruct path|]. simpl in Hc. destruct r; by injection Hc as <-.
  - destruct r as [| |kind' rs]; simpl in Hc; try done.
    destruct (String.eqb kind kind'); [|done].
    destruct (map2_opt _ ls rs) as [ms|] eqn:Hms; simpl in Hc; [|done].
    injection Hc as <-.
    destruct path as [|i path]; simpl in Hleaf; [done|].
    destruct (map2_opt_lookup_all _ _ _ _ i Hms)
      as [(_ & _ & Hm)|(li & ri & mi & Hli & Hri & Hmi & Hci)].
    { by rewrite Hm in Hleaf. }
    rewrite Hmi in Hleaf. simpl in Hleaf. simpl. rewrite Hli, Hri. simpl.
    rewrite Forall_forall in IH.
    by apply (IH li (list_elem_of_lookup_2 _ _ _ Hli) ri mi).
Qed.

(** In a hole of the left tree the combined tree is the right tree. *)
Lemma combine_fills_holes (l : PyTree A) :
  ∀ r m path,
    eqx.combine l r = Some m →
    none_on_path l path = true →
    leaf_at m path = leaf_at r path.
Proof.
  unfold eqx.combine.
  induction l as [y| |kind ls IH] using PyTree_nested_ind; intros r m path Hc Hhole.
  - by destruct path.
  - simpl in Hc. destruct r; by injection Hc as <-.
  - destruct r as [| |kind' rs]; simpl in Hc; try done.
    destruct (String.eqb kind kind'); [|done].
    destruct (map2_opt _ ls rs) as [ms|] eqn:Hms; simpl in Hc; [|done].
    injection Hc as <-.
    destruct path as [|i path]; simpl in Hhole; [done|].
    destruct (map2_opt_lookup_all _ _ _ _ i Hms)
      as [(Hl & _ & _)|(li & ri & mi & Hli & Hri & Hmi & Hci)].
    { by rewrite Hl in Hhole. }
    rewrite Hli in Hhole. simpl. rewrite Hri, Hmi. simpl.
    rewrite Forall_forall in IH.
    by apply (IH li (list_elem_of_lookup_2 _ _ _ Hli) ri mi).
Qed.

(** At most one prefix of a path ends in a leaf of a tree. *)
Lemma leaf_prefix_unique {B} (above1 : list nat) :
  ∀ (spec : PyTree B) (above2 path : list nat) (x1 x2 : B),
    above1 `prefix_of` path → above2 `prefix_of` path →
    leaf_at spec above1 = Some x1 → leaf_at spec above2 = Some x2 →
    x1 = x2.
Proof.
  induction above1 as [|i above1 IH]; intros spec above2 path x1 x2 Hp1 Hp2 H1 H2.
  - destruct spec; simpl in H1; try done.
    destruct above2; simpl in H2; [congruence|done].
  - destruct spec as [| |kind kids]; simpl in H1; try done.
    destruct above2 as [|j above2]; simpl in H2; [done|].
    destruct path as [|k path]; [by apply prefix_nil_not in Hp1|].
    apply prefix_cons_inv_1 in Hp1 as Hi. apply prefix_cons_inv_1 in Hp2 as Hj.
    subst i j.
    apply prefix_cons_inv_2 in Hp1. apply prefix_cons_inv_2 in Hp2.
    destruct (kids !! k) as [kid|]; simpl in H1, H2; [|done].
    by apply (IH kid above2 path).
Qed.
End CombineLeaves.

Section TrainableLeaves.
Context `{Collaborators}.

Lemma leaf_at_tree_map_leaf {B C} (f : B → C) (t : PyTree B) :
  ∀ path, leaf_at (jtu.tree_map (λ b, Leaf (f b)) t) path = f <$> leaf_at t path.
Proof.
  induction t as [y| |kind kids IH] using PyTree_nested_ind; intros path.
  - by destruct path.
  - by destruct path.
  - destruct path as [|i path]; simpl; [done|].
    rewrite list_lookup_fmap.
    destruct (kids !! i) as [kid|] eqn:Hkid; simpl; [|done].
    rewrite Forall_forall in IH. apply IH. by eapply list_elem_of_lookup_2.
Qed.

Lemma spec_pred_trainable_and_diffable (pred : eqx.FilterSpec Value) (x : Value) :
  spec_pred (trainable_and_diffable pred) x = spec_pred pred x && is_inexact_arrayish x.
Proof. by destruct pred as [[]|p]. Qed.

Lemma partition_trainable_params_halves (self : Trainer) (m trainable rest : Model) :
  partition_trainable_params self m = Ok (trainable, rest) →
  ∃ ft,
    jtu.tree_map2 eqx._filter_tree
      (jtu.tree_map (λ pred, Leaf (trainable_and_diffable pred)) (is_trainable_param self))
      m = Some ft
    ∧ jtu.tree_map2 keep_left ft m = Some trainable
    ∧ jtu.tree_map2 keep_right ft m = Some rest.
Proof.
  unfold partition_trainable_params, eqx.partition, of_tree_op.
  change (λ (mask : bool) (x : PyTree Value), Some (if mask then x else PNone))
    with (@keep_left Value).
  change (λ (mask : bool) (x : PyTree Value), Some (if mask then PNone else x))
    with (@keep_right Value).
  destruct (jtu.tree_map2 eqx._filter_tree _ m) as [ft|]; simpl; [|done].
  destruct (jtu.tree_map2 keep_left ft m) as [l|] eqn:Hl; simpl; [|done].
  destruct (jtu.tree_map2 keep_right ft m) as [r|] eqn:Hr; simpl; [|done].
  intros [= <- <-]. by exists ft.
Qed.

Lemma partition_trainable_params_leaf_iff (self : Trainer) (m trainable rest : Model)
    (path : list nat) (x : Value) :
  partition_trainable_params self m = Ok (trainable, rest) →
  (leaf_at trainable path = Some x ↔
   leaf_at m path = Some x
   ∧ ∃ above pred, above `prefix_of` path
                   ∧ leaf_at (is_trainable_param self) above = Some pred
                   ∧ spec_pred pred x = true ∧ is_inexact_arrayish x = true)
  ∧ (leaf_at rest path = Some x ↔
     leaf_at m path = Some x
     ∧ ∃ above pred, above `prefix_of` path
                     ∧ leaf_at (is_trainable_param self) above = Some pred
                     ∧ (spec_pred pred x = false ∨ is_inexact_arrayish x = false)).
Proof.
  intros Hp. apply partition_trainable_params_halves in Hp as (ft & Hft & Hl & Hr).
  destruct (filter_tree_leaves _ _ _ _ _ Hft Hl Hr path x) as [-> ->].
  assert (∀ b,
             (∃ above mask, above `prefix_of` path
                ∧ leaf_at (jtu.tree_map (λ pred, Leaf (trainable_and_diffable pred))
                             (is_trainable_param self)) above = Some mask
                ∧ spec_pred mask x = b)
             ↔ (∃ above pred, above `prefix_of` path
                  ∧ leaf_at (is_trainable_param self) above = Some pred
                  ∧ spec_pred pred x && is_inexact_arrayish x = b)) as Hmask.
  { intros b. split.
    - intros (above & mask & Hpre & Hmask & Hb).
      rewrite leaf_at_tree_map_leaf in Hmask.
      destruct (leaf_at (is_trainable_param self) above) as [pred|] eqn:Hpred;
        simpl in Hmask; [|done].
      injection Hmask as <-. rewrite spec_pred_trainable_and_diffable in Hb.
      by exists above, pred.
    - intros (above & pred & Hpre & Hpred & Hb).
      exists above, (trainable_and_diffable pred). split_and!; [done| |].
      + by rewrite leaf_at_tree_map_leaf, Hpred.
      + by rewrite spec_pred_trainable_and_diffable. }
  rewrite !Hmask. split; split.
  - intros (? & above & pred & ? & ? & [? ?]%andb_true_iff). eauto 10.
  - intros (? & above & pred & ? & ? & Hs & Hi). split; [done|].
    exists above, pred. by rewrite Hs, Hi.
  - intros (? & above & pred & ? & ? & ?%andb_false_iff). eauto 10.
  - intros (? & above & pred & ? & ? & Hor). split; [done|].
    exists above, pred. split_and!; [done|done|]. by apply andb_false_iff.
Qed.

(** X18. What is trainable.  A leaf is in the trainable half exactly when it
    is a leaf of the model, at the same place, that is an inexact array and
    that the leaf of [is_trainable] above it selects; it is in the other half
    exactly when it is a leaf of the model that is not an inexact array or is
    not selected.  So integer arrays and static values are never trained,
    whatever the mask says. *)
Theorem partition_trainable_params_leaves (self : Trainer) (m trainable rest : Model)
    (path : list nat) (x : Value) :
  partition_trainable_params self m = Ok (trainable, rest) →
  (leaf_at trainable path = Some x ↔
   leaf_at m path = Some x
   ∧ ∃ above pred, above `prefix_of` path
                   ∧ leaf_at (is_trainable_param self) above = Some pred
                   ∧ spec_pred pred x = true ∧ is_inexact_arrayish x = true)
  ∧ (leaf_at rest path = Some x ↔
     leaf_at m path = Some x
     ∧ ∃ above pred, above `prefix_of` path
                     ∧ leaf_at (is_trainable_param self) above = Some pred
                     ∧ (spec_pred pred x = false ∨ is_inexact_arrayish x = false)).
Proof. apply partition_trainable_params_leaf_iff. Qed.

(** X19. The two halves share no leaf and miss none: every leaf of the model
    is in exactly one half, at its place, and the other half has nothing
    there. *)
Theorem partition_trainable_params_exclusive (self : Trainer) (m trainable rest : Model)
    (path : list nat) (x : Value) :
  partition_trainable_params self m = Ok (trainable, rest) →
  leaf_at m path = Some x →
  (leaf_at trainable path = Some x ∧ leaf_at rest path = None)
  ∨ (leaf_at rest path = Some x ∧ leaf_at trainable path = None).
Proof.
  intros Hp Hm.
  assert (eqx.combine trainable rest = Some m) as Hc.
  { unfold partition_trainable_params, of_tree_op in Hp.
    destruct (eqx.partition m _) as [[l r]|] eqn:Hpart; [|done].
    injection Hp as -> ->. by eapply eqx_partition_combine. }
  assert (∀ x1 x2, leaf_at trainable path = Some x1 → leaf_at rest path = Some x2 → False)
    as Hdisjoint.
  { intros x1 x2 H1 H2.
    destruct (partition_trainable_params_leaf_iff self m trainable rest path x1 Hp)
      as [Ht _].
    destruct (partition_trainable_params_leaf_iff self m trainable rest path x2 Hp)
      as [_ Hr].
    apply Ht in H1 as (Hm1 & a1 & p1 & Hpre1 & Hp1 & Hs1 & Hi1).
    apply Hr in H2 as (Hm2 & a2 & p2 & Hpre2 & Hp2 & Hor).
    assert (x1 = x2) as -> by congruence.
    assert (p1 = p2) as -> by by eapply (leaf_prefix_unique a1 _ a2 path).
    destruct Hor; congruence. }
  destruct (combine_leaf_origin _ _ _ _ _ Hc Hm) as [Ht|[_ Hr]].
  - left. split; [done|].
    destruct (leaf_at rest path) as [x2|] eqn:Hr; [|done].
    by destruct (Hdisjoint _ _ Ht eq_refl).
  - right. split; [done|].
    destruct (leaf_at trainable path) as [x1|] eqn:Ht; [|done].
    by destruct (Hdisjoint _ _ eq_refl Hr).
Qed.
End TrainableLeaves.

Lemma partition_trainable_params_leaves_witness :
  let self := demo_trainer (H := demo_collaborators (Ok None)) (demo_config jmp.f32 None 2)
                (Leaf (eqx.FBool true)) in
  ∃ trainable rest,
    partition_trainable_params self demo_model = Ok (trainable, rest)
    ∧ leaf_at trainable [0%nat] = Some (Array float32 1)
    ∧ leaf_at trainable [2%nat] = None
    ∧ leaf_at rest [2%nat] = Some (Array int32 3).
Proof.
  intros self. eexists _, _. split; [reflexivity|].
  assert (partition_trainable_params self demo_model
          = Ok (Node "Module" [Leaf (Array float32 1); Leaf (Array float32 2); PNone],
                Node "Module" [PNone; PNone; Leaf (Array int32 3)])) as Hp by reflexivity.
  split_and!.
  - apply (proj1 (partition_trainable_params_leaves self demo_model _ _ [0%nat] _ Hp)).
    split; [reflexivity|]. exists [], (eqx.FBool true).
    split_and!; [apply prefix_nil|reflexivity..].
  - reflexivity.
  - apply (proj2 (partition_trainable_params_leaves self demo_model _ _ [2%nat] _ Hp)).
    split; [reflexivity|]. exists [], (eqx.FBool true).
    split_and!; [apply prefix_nil|reflexivity|by right].
Defined.

Lemma partition_trainable_params_exclusive_witness :
  let self := demo_trainer (H := demo_collaborators (Ok None)) (demo_config jmp.f32 None 2)
                demo_mask in
  ∃ trainable rest,
    partition_trainable_params self demo_model = Ok (trainable, rest)
    ∧ leaf_at demo_model [1%nat] = Some (Array float32 2)
    ∧ ((leaf_at trainable [1%nat] = Some (Array float32 2) ∧ leaf_at rest [1%nat] = None)
       ∨ (leaf_at rest [1%nat] = Some (Array float32 2)
          ∧ leaf_at trainable [1%nat] = None)).
Proof.
  intros self. eexists _, _. split; [reflexivity|]. split; [reflexivity|].
  apply (partition_trainable_params_exclusive self demo_model _ _ [1%nat]); reflexivity.
Defined.

(** ** Precision of a freshly initialised model *)

Lemma leaf_at_cast (dtype : DType) (t : Model) (path : list nat) :
  leaf_at (jmp._cast_floating_to t dtype) path
  = jmp.conditional_cast dtype <$> leaf_at t path.
Proof. apply leaf_at_tree_map_leaf. Qed.

Lemma none_on_path_cast (dtype : DType) (t : Model) :
  ∀ path, none_on_path (jmp._cast_floating_to t dtype) path = none_on_path t path.
Proof.
  unfold jmp._cast_floating_to.
  induction t as [y| |kind kids IH] using PyTree_nested_ind; intros path.
  - by destruct path.
  - by destruct path.
  - destruct path as [|i path]; simpl; [done|].
    rewrite list_lookup_fmap.
    destruct (kids !! i) as [kid|] eqn:Hkid; simpl; [|done].
    rewrite Forall_forall in IH. apply IH. by eapply list_elem_of_lookup_2.
Qed.

Lemma conditional_cast_floating (dtype d : DType) (data : Z) (x : Value) :
  jmp.conditional_cast dtype x = Array d data →
  is_floating d = true →
  d = dtype.
Proof.
  destruct x as [d' data'| |]; simpl; try done.
  destruct (is_floating d') eqn:Hd'; intros [= <- <-]; congruence.
Qed.

Section FreshPrecision.
Context `{Collaborators}.

(** X20. The model that [_init_model_and_opt_state] returns holds every leaf
    of the initialised model at its place, cast by its half: a floating-point
    array of the trainable half has the param dtype, one of the other half
    has the compute dtype, and everything else is as the initializer made
    it. *)
Theorem _init_model_and_opt_state_precision (self : Trainer) (model_init : ModelInit)
    (m : Model) (os : OptState) (path : list nat) (x : Value) :
  _init_model_and_opt_state self model_init = Ok (m, os) →
  leaf_at m path = Some x →
  ∃ m0 trainable rest x0,
    model_init () = Ok m0
    ∧ partition_trainable_params self m0 = Ok (trainable, rest)
    ∧ leaf_at m0 path = Some x0
    ∧ ((leaf_at trainable path = Some x0
        ∧ x = jmp.conditional_cast (jmp.param_dtype (mp (config self))) x0)
       ∨ (leaf_at rest path = Some x0
          ∧ x = jmp.conditional_cast (jmp.compute_dtype (mp (config self))) x0)).
Proof.
  intros Hinit Hleaf.
  apply _init_model_and_opt_state_inv in Hinit as (m0 & t & r & Hmi & Hp & Hc & _).
  exists m0, t, r.
  unfold jmp.cast_to_param, jmp.cast_to_compute in Hc.
  destruct (combine_leaf_origin _ _ _ _ _ Hc Hleaf) as [Hl|[_ Hr]].
  - rewrite leaf_at_cast in Hl.
    destruct (leaf_at t path) as [x0|] eqn:Hx0; simpl in Hl; [|done].
    injection Hl as <-. exists x0. split_and!; try done.
    + by apply (proj1 (partition_trainable_params_leaf_iff self m0 t r path x0 Hp)).
    + by left.
  - rewrite leaf_at_cast in Hr.
    destruct (leaf_at r path) as [x0|] eqn:Hx0; simpl in Hr; [|done].
    injection Hr as <-. exists x0. split_and!; try done.
    + by apply (proj2 (partition_trainable_params_leaf_iff self m0 t r path x0 Hp)).
    + by right.
Qed.
End FreshPrecision.

Lemma _init_model_and_opt_state_precision_witness :
  let self := demo_trainer (H := demo_collaborators (Ok None))
                (demo_config mixed_policy None 2) demo_mask in
  ∃ m os,
    _init_model_and_opt_state self (λ _, Ok demo_model) = Ok (m, os)
    ∧ leaf_at m [1%nat] = Some (Array bfloat16 2)
    ∧ ∃ m0 trainable rest x0,
        Ok demo_model = Ok m0
        ∧ partition_trainable_params self m0 = Ok (trainable, rest)
        ∧ leaf_at m0 [1%nat] = Some x0
        ∧ ((leaf_at trainable [1%nat] = Some x0
            ∧ Array bfloat16 2
              = jmp.conditional_cast (jmp.param_dtype (mp (config self))) x0)
           ∨ (leaf_at rest [1%nat] = Some x0
              ∧ Array bfloat16 2
                = jmp.conditional_cast (jmp.compute_dtype (mp (config self))) x0)).
Proof.
  intros self. eexists _, _. split; [reflexivity|]. split; [reflexivity|].
  eapply (_init_model_and_opt_state_precision self (λ _, Ok demo_model)); reflexivity.
Defined.

(** ** Leaves of a resumed model *)

Section ResumedLeaves.
Context `{Collaborators}.

(** A state resumed from a checkpoint: its model is the checkpoint's
    trainable tree combined with the supplied model or, without one, with the
    non-trainable half that the initializer gives. *)
Lemma initial_state_checked_resumed (self : Trainer) (key : PRNGKeyArray)
    (given : option Model) (mi : ModelInit) (st : TrainerState) :
  initial_state_checked self key given mi = Ok st →
  ∃ ms oss tms ckpt,
    filter_eval_shape (_init_model_and_opt_state self) mi = Ok (ms, oss)
    ∧ trainable_params_only self ms = Ok tms
    ∧ maybe_load_checkpoint (config self) tms (oss, key)
        (parameter_axis_mapping (config self)) = Ok ckpt
    ∧ ∀ tm aux n, ckpt = Some (tm, aux, n) →
        ∃ r, match given with
             | Some m => r = m
             | None => _init_non_trainable_params self mi = Ok r
             end
             ∧ eqx.combine tm r = Some (model st).
Proof.
  unfold initial_state_checked.
  destruct (filter_eval_shape _ mi) as [[ms oss]|e] eqn:Hshape; simpl; [|done].
  destruct (trainable_params_only self ms) as [tms|e] eqn:Htms; simpl; [|done].
  destruct (maybe_load_checkpoint _ _ _ _) as [ckpt|e] eqn:Hload; simpl; [|done].
  intros Hrest. exists ms, oss, tms, ckpt. split_and!; try done.
  intros tm [os k] n ->.
  destruct given as [m|].
  - destruct (eqx.combine tm m) as [m'|] eqn:Hc; simpl in Hrest; [|done].
    injection Hrest as <-. by exists m.
  - destruct (_init_non_trainable_params self mi) as [nt|e]; simpl in Hrest; [|done].
    destruct (eqx.combine tm nt) as [m'|] eqn:Hc; simpl in Hrest; [|done].
    injection Hrest as <-. by exists nt.
Qed.

(** X21. Resuming with a concrete model: wherever the checkpoint's trainable
    tree has a hole, the resumed model has the leaf of the supplied model, as
    it was supplied. *)
Theorem initial_state_resume_takes_model (self : Trainer) (key : PRNGKeyArray)
    (m : Model) (st : TrainerState) :
  initial_state self key (Some m) None = Ok st →
  ∃ ms oss tms ckpt,
    filter_eval_shape (_init_model_and_opt_state self) (λ _, Ok m) = Ok (ms, oss)
    ∧ trainable_params_only self ms = Ok tms
    ∧ maybe_load_checkpoint (config self) tms (oss, key)
        (parameter_axis_mapping (config self)) = Ok ckpt
    ∧ ∀ tm aux n path,
        ckpt = Some (tm, aux, n) →
        none_on_path tm path = true →
        leaf_at (model st) path = leaf_at m path.
Proof.
  simpl. intros Hst.
  apply initial_state_checked_resumed in Hst as (ms & oss & tms & ckpt & ? & ? & ? & Hres).
  exists ms, oss, tms, ckpt. split_and!; try done.
  intros tm aux n path Hckpt Hhole.
  destruct (Hres tm aux n Hckpt) as (r & -> & Hc).
  by eapply combine_fills_holes.
Qed.

(** X22. Resuming with an initializer: wherever the checkpoint's trainable
    tree has a hole, a floating-point array of the resumed model has the
    compute dtype of the policy. *)
Theorem initial_state_resume_casts_rest (self : Trainer) (key : PRNGKeyArray)
    (mi : ModelInit) (st : TrainerState) :
  initial_state self key None (Some mi) = Ok st →
  ∃ ms oss tms ckpt,
    filter_eval_shape (_init_model_and_opt_state self) mi = Ok (ms, oss)
    ∧ trainable_params_only self ms = Ok tms
    ∧ maybe_load_checkpoint (config self) tms (oss, key)
        (parameter_axis_mapping (config self)) = Ok ckpt
    ∧ ∀ tm aux n path d data,
        ckpt = Some (tm, aux, n) →
        none_on_path tm path = true →
        leaf_at (model st) path = Some (Array d data) →
        is_floating d = true →
        d = jmp.compute_dtype (mp (config self)).
Proof.
  simpl. intros Hst.
  apply initial_state_checked_resumed in Hst as (ms & oss & tms & ckpt & ? & ? & ? & Hres).
  exists ms, oss, tms, ckpt. split_and!; try done.
  intros tm aux n path d data Hckpt Hhole Hleaf Hfl.
  destruct (Hres tm aux n Hckpt) as (r & Hr & Hc).
  rewrite (combine_fills_holes _ _ _ _ Hc Hhole) in Hleaf.
  by eapply _init_non_trainable_params_precision.
Qed.
End ResumedLeaves.

Lemma initial_state_resume_takes_model_witness :
  let H := demo_collaborators (Ok (Some demo_checkpoint)) in
  let self := demo_trainer (demo_config mixed_policy None 100) demo_mask in
  ∃ st,
    initial_state self 7%Z (Some demo_model) None = Ok st
    ∧ leaf_at (model st) [2%nat] = leaf_at demo_model [2%nat]
    ∧ ∃ ms oss tms ckpt,
        filter_eval_shape (_init_model_and_opt_state self) (λ _, Ok demo_model)
        = Ok (ms, oss)
        ∧ trainable_params_only self ms = Ok tms
        ∧ maybe_load_checkpoint (config self) tms (oss, 7%Z)
            (parameter_axis_mapping (config self)) = Ok ckpt
        ∧ ∀ tm aux n path,
            ckpt = Some (tm, aux, n) →
            none_on_path tm path = true →
            leaf_at (model st) path = leaf_at demo_model path.
Proof.
  intros H self. eexists. split; [reflexivity|]. split; [reflexivity|].
  apply (initial_state_resume_takes_model self 7%Z demo_model). reflexivity.
Defined.

Lemma initial_state_resume_casts_rest_witness :
  let H := demo_collaborators (Ok (Some demo_checkpoint)) in
  let self := demo_trainer (demo_config mixed_policy None 100) demo_mask in
  ∃ st,
    initial_state self 7%Z None (Some (λ _, Ok demo_model)) = Ok st
    ∧ leaf_at (model st) [1%nat] = Some (Array bfloat16 2)
    ∧ ∃ ms oss tms ckpt,
        filter_eval_shape (_init_model_and_opt_state self) (λ _, Ok demo_model)
        = Ok (ms, oss)
        ∧ trainable_params_only self ms = Ok tms
        ∧ maybe_load_checkpoint (config self) tms (oss, 7%Z)
            (parameter_axis_mapping (config self)) = Ok ckpt
        ∧ ∀ tm aux n path d data,
            ckpt = Some (tm, aux, n) →
            none_on_path tm path = true →
            leaf_at (model st) path = Some (Array d data) →
            is_floating d = true →
            d = jmp.compute_dtype (mp (config self)).
Proof.
  intros H self. eexists. split; [reflexivity|]. split; [reflexivity|].
  apply (initial_state_resume_casts_rest self 7%Z (λ _, Ok demo_model)). reflexivity.
Defined.

(** ** [_params_only] *)

Section ParamsOnly.
Context `{Collaborators}.

Lemma selected_idempotent {A} (g : A → bool) (m : PyTree A) :
  selected g (selected g m) = selected g m.
Proof.
  unfold selected.
  induction m as [y| |kind kids IH] using PyTree_nested_ind; simpl.
  - destruct (g y) eqn:Hg; simpl; [by rewrite Hg|done].
  - done.
  - f_equal. rewrite <- list_fmap_compose.
    apply list_fmap_ext. intros i kid Hkid. simpl.
    rewrite Forall_forall in IH. apply IH. by eapply list_elem_of_lookup_2.
Qed.

Lemma _params_only_selected (t : Model) :
  _params_only t = Ok (selected is_inexact_arrayish t).
Proof.
  unfold _params_only, eqx_filter.
  change (λ (mask : bool) (x : PyTree Value), Some (if mask then x else PNone))
    with (@keep_left Value).
  simpl. by rewrite left_of_leaf_mask.
Qed.

(** X23. [_params_only] never fails; it keeps exactly the leaves that are
    inexact arrays, each at its place, and applying it to its own result
    changes nothing.  It is what [trainable_params_only] returns for a trainer
    with the default [is_trainable=True]. *)
Theorem _params_only_spec (t : Model) :
  ∃ params,
    _params_only t = Ok params
    ∧ (∀ path x, leaf_at params path = Some x ↔
                 leaf_at t path = Some x ∧ is_inexact_arrayish x = true)
    ∧ _params_only params = Ok params
    ∧ ∀ self, is_trainable_param self = Leaf (eqx.FBool true) →
              trainable_params_only self t = Ok params.
Proof.
  exists (selected is_inexact_arrayish t). split_and!.
  - apply _params_only_selected.
  - intros path x. apply leaf_at_selected.
  - by rewrite _params_only_selected, selected_idempotent.
  - intros self Hmask. unfold trainable_params_only, partition_trainable_params.
    rewrite Hmask. simpl. by rewrite eqx_partition_leaf_mask_eq.
Qed.
End ParamsOnly.
